(** * Citation generator: URL classification, metadata extraction, formatting

    A shallow embedding of [f_app.py].  Python [str] values are [string]s whose
    characters are code points below 256; a Python function that can raise
    returns a [result]; code that talks to the network runs in the monad [M],
    which threads the list of HTTP requests issued so far. *)

From Stdlib Require Import String Ascii List ZArith Lia Bool DecimalString.
Import ListNotations.
Open Scope list_scope.
Open Scope string_scope.

(** ** Exceptions and the error monad *)

Inductive exn : Type :=
| IndexError
| KeyError
| TypeError
| AttributeError
| ValueError
| RequestException   (* any error raised by [requests.get] *)
| JSONDecodeError
| ParseError.        (* [xml.etree.ElementTree.ParseError] *)

Inductive result (A : Type) : Type :=
| Ok (a : A)
| Raise (e : exn).
Arguments Ok {A} a.
Arguments Raise {A} e.

Definition rbind {A B} (r : result A) (k : A -> result B) : result B :=
  match r with
  | Ok a => k a
  | Raise e => Raise e
  end.

Notation "x <- c ;; k" := (rbind c (fun x => k))
  (at level 61, c at next level, right associativity).

(** [[f(x) for x in l]]: the comprehension stops at the first exception. *)
Fixpoint comprehension {A B} (f : A -> result B) (l : list A) : result (list B) :=
  match l with
  | [] => Ok []
  | x :: l' => y <- f x ;; ys <- comprehension f l' ;; Ok (y :: ys)
  end.

(** ** Python string and list primitives *)

Module Py.

(** [str.isspace] on one code point below 256: TAB..CR, FS..US, space,
    NEL (0x85) and NBSP (0xA0). *)
Definition is_space (c : ascii) : bool :=
  let n := nat_of_ascii c in
  (((9 <=? n) && (n <=? 13)) || ((28 <=? n) && (n <=? 32))
   || (n =? 133) || (n =? 160))%nat.

(** Decimal digits ([\d] on code points below 256). *)
Definition is_digit (c : ascii) : bool :=
  let n := nat_of_ascii c in ((48 <=? n) && (n <=? 57))%nat.

(** [\w] on code points below 256: [str.isalnum] or underscore. *)
Definition is_word (c : ascii) : bool :=
  let n := nat_of_ascii c in
  (is_digit c
   || ((65 <=? n) && (n <=? 90)) || ((97 <=? n) && (n <=? 122))
   || (n =? 95)
   || (n =? 170) || (n =? 178) || (n =? 179) || (n =? 181)
   || (n =? 185) || (n =? 186) || ((188 <=? n) && (n <=? 190))
   || ((192 <=? n) && (n <=? 214)) || ((216 <=? n) && (n <=? 246))
   || ((248 <=? n) && (n <=? 255)))%nat.

Definition is_empty (s : string) : bool :=
  match s with EmptyString => true | String _ _ => false end.

(** [s.split()] with no separator: maximal runs of non-space characters.
    [cur] is the token being read. *)
Fixpoint split_ws_aux (cur : string) (s : string) : list string :=
  match s with
  | EmptyString => if is_empty cur then [] else [cur]
  | String c s' =>
      if is_space c then
        if is_empty cur then split_ws_aux "" s' else cur :: split_ws_aux "" s'
      else split_ws_aux (cur ++ String c "") s'
  end.

Definition split_ws (s : string) : list string := split_ws_aux "" s.

(** [s.split(sep)] for a nonempty separator: cut at every occurrence of
    [sep], scanning from the left; [skip] counts the characters of an
    occurrence still to be passed over. *)
Fixpoint split_aux (sep : string) (skip : nat) (cur : string) (s : string)
  : list string :=
  match s with
  | EmptyString => [cur]
  | String c s' =>
      match skip with
      | S n => split_aux sep n cur s'
      | O =>
          if prefix sep s then cur :: split_aux sep (String.length sep - 1) "" s'
          else split_aux sep 0 (cur ++ String c "") s'
      end
  end.

Definition split (sep s : string) : list string := split_aux sep 0 "" s.

(** [sub in s]. *)
Fixpoint contains (sub s : string) : bool :=
  prefix sub s
  || match s with
     | EmptyString => false
     | String _ s' => contains sub s'
     end.

(** [sep.join(l)]. *)
Definition join (sep : string) (l : list string) : string := String.concat sep l.

(** [s[:n]]. *)
Definition slice_to (n : nat) (s : string) : string := substring 0 n s.

(** [s[0]]. *)
Definition first_char (s : string) : result string :=
  match s with
  | EmptyString => Raise IndexError
  | String c _ => Ok (String c "")
  end.

(** [l[0]] and [l[-1]]. *)
Definition item0 {A} (l : list A) : result A :=
  match l with
  | [] => Raise IndexError
  | x :: _ => Ok x
  end.

Fixpoint item_last {A} (l : list A) : result A :=
  match l with
  | [] => Raise IndexError
  | [x] => Ok x
  | _ :: l' => item_last l'
  end.

(** [l[:-1]]. *)
Definition but_last {A} (l : list A) : list A := removelast l.

(** [str(n)] for an integer. *)
Definition str_int (z : Z) : string := NilEmpty.string_of_int (Z.to_int z).

(** [s.strip()]. *)
Fixpoint lstrip (s : string) : string :=
  match s with
  | EmptyString => EmptyString
  | String c s' => if is_space c then lstrip s' else s
  end.

Fixpoint rstrip (s : string) : string :=
  match s with
  | EmptyString => EmptyString
  | String c s' =>
      match rstrip s' with
      | EmptyString => if is_space c then EmptyString else String c EmptyString
      | r => String c r
      end
  end.

Definition strip (s : string) : string := rstrip (lstrip s).

End Py.

(** The double quote character, as a one-character string. *)
Definition dq : string := String (ascii_of_nat 34) EmptyString.

(** ** The metadata dictionary

    Every extractor builds a [dict] over a fixed set of keys; a field is
    [None] when the key is absent.  Text values are strings; the author list
    may hold [None] entries (an arXiv [<name/>] element without text). *)

Record Metadata : Type := {
  title : option string;
  authors : option (list (option string));
  year : option string;
  month : option string;
  journal : option string;
  volume : option string;
  issue : option string;
  doi : option string;
  url : option string;
  publisher : option string
}.

(** [bool(metadata)]: a dict is falsy exactly when it has no key. *)
Definition dict_truthy (m : Metadata) : bool :=
  match title m, authors m, year m, month m, journal m,
        volume m, issue m, doi m, url m, publisher m with
  | None, None, None, None, None, None, None, None, None, None => false
  | _, _, _, _, _, _, _, _, _, _ => true
  end.

(** [bool(metadata.get(k))] for a text field. *)
Definition truthy (v : option string) : bool :=
  match v with
  | Some s => negb (Py.is_empty s)
  | None => false
  end.

(** [metadata.get(k, default)]. *)
Definition get_or {A} (v : option A) (default : A) : A :=
  match v with
  | Some a => a
  | None => default
  end.

(** [metadata[k]]. *)
Definition item {A} (v : option A) : result A :=
  match v with
  | Some a => Ok a
  | None => Raise KeyError
  end.

(** [str(x)] / [f"{x}"] for a value that is a string or [None]. *)
Definition str_of (v : option string) : string :=
  match v with
  | Some s => s
  | None => "None"
  end.

(** [x.split()] for a value that is a string or [None]. *)
Definition split_of (v : option string) : result (list string) :=
  match v with
  | Some s => Ok (Py.split_ws s)
  | None => Raise AttributeError
  end.

(** [sep.join(l)] and [s + x] where entries may be [None]. *)
Definition join_of (sep : string) (l : list (option string)) : result string :=
  l' <- comprehension (fun v => match v with
                                | Some s => Ok s
                                | None => Raise TypeError
                                end) l ;;
  Ok (Py.join sep l').

Definition add_of (s : string) (v : option string) : result string :=
  match v with
  | Some t => Ok (s ++ t)
  | None => Raise TypeError
  end.

Definition unable : string := "Unable to generate citation.".

(** ** Citation formatters *)

(** [f"{a.split()[-1]}, {'. '.join(n[0] for n in a.split()[:-1])}."] *)
Definition apa_author (a : option string) : result string :=
  toks <- split_of a ;;
  family <- Py.item_last toks ;;
  initials <- comprehension Py.first_char (Py.but_last toks) ;;
  Ok (family ++ ", " ++ Py.join ". " initials ++ ".").

(** Lines 152-161: the author segment of an APA citation. *)
Definition apa_author_text (authors : list (option string)) : result string :=
  if (1 <? List.length authors)%nat then
    formatted_authors <- comprehension apa_author authors ;;
    final <- Py.item_last formatted_authors ;;
    Ok (Py.join ", " (Py.but_last formatted_authors) ++ ", & " ++ final)
  else
    match authors with
    | a :: _ => apa_author a
    | [] => Ok ""
    end.

(** Lines 151-174: the citation up to, and without, its locator. *)
Definition apa_body (metadata : Metadata) : result string :=
  let authors := get_or (authors metadata) [] in
  author_text <- apa_author_text authors ;;
  let citation := author_text ++ " (" ++ get_or (year metadata) "" in
  citation <- (if truthy (month metadata)
               then v <- item (month metadata) ;; Ok (citation ++ ", " ++ v)
               else Ok citation) ;;
  t <- item (title metadata) ;;
  let citation := citation ++ "). " ++ t in
  if truthy (journal metadata) then
    j <- item (journal metadata) ;;
    let citation := citation ++ ". " ++ j in
    if truthy (volume metadata) then
      v <- item (volume metadata) ;;
      let citation := citation ++ ", " ++ v in
      if truthy (issue metadata) then
        i <- item (issue metadata) ;;
        Ok (citation ++ "(" ++ i ++ ")")
      else Ok citation
    else Ok citation
  else Ok citation.

Definition format_apa_citation (metadata : Metadata) : result string :=
  if negb (dict_truthy metadata) || negb (truthy (title metadata)) then Ok unable
  else
    citation <- apa_body metadata ;;
    if truthy (doi metadata) then
      d <- item (doi metadata) ;; Ok (citation ++ ". https://doi.org/" ++ d)
    else if truthy (url metadata) then
      u <- item (url metadata) ;; Ok (citation ++ ". " ++ u)
    else Ok citation.

(** Lines 189-195: the author segment of a Chicago citation. *)
Definition chicago_author_text (authors : list (option string))
  : result (option string) :=
  if (1 <? List.length authors)%nat then
    joined <- join_of ", " (Py.but_last authors) ;;
    final <- Py.item_last authors ;;
    s <- add_of (joined ++ ", and ") final ;;
    Ok (Some s)
  else
    match authors with
    | a :: _ => Ok a
    | [] => Ok (Some "")
    end.

(** Lines 188-210: the citation up to, and without, its locator. *)
Definition chicago_body (metadata : Metadata) : result string :=
  let authors := get_or (authors metadata) [] in
  author_text <- chicago_author_text authors ;;
  t <- item (title metadata) ;;
  let citation := str_of author_text ++ ". " ++ dq ++ t ++ dq in
  citation <- (if truthy (journal metadata) then
                 j <- item (journal metadata) ;;
                 let citation := citation ++ ". " ++ j in
                 if truthy (volume metadata) then
                   v <- item (volume metadata) ;;
                   let citation := citation ++ " " ++ v in
                   if truthy (issue metadata) then
                     i <- item (issue metadata) ;;
                     Ok (citation ++ ", no. " ++ i)
                   else Ok citation
                 else Ok citation
               else Ok citation) ;;
  if truthy (month metadata) && truthy (year metadata) then
    mo <- item (month metadata) ;;
    y <- item (year metadata) ;;
    Ok (citation ++ " " ++ mo ++ " " ++ y ++ ".")
  else if truthy (year metadata) then
    y <- item (year metadata) ;; Ok (citation ++ " " ++ y ++ ".")
  else Ok citation.

Definition format_chicago_citation (metadata : Metadata) : result string :=
  if negb (dict_truthy metadata) || negb (truthy (title metadata)) then Ok unable
  else
    citation <- chicago_body metadata ;;
    if truthy (doi metadata) then
      d <- item (doi metadata) ;; Ok (citation ++ " https://doi.org/" ++ d ++ ".")
    else if truthy (url metadata) then
      u <- item (url metadata) ;; Ok (citation ++ " " ++ u ++ ".")
    else Ok citation.

(** Lines 225-232: the author segment of an MLA citation. *)
Definition mla_author_text (authors : list (option string)) : string :=
  match authors with
  | a :: _ =>
      if (1 <? List.length authors)%nat then str_of a ++ ", et al" else str_of a
  | [] => ""
  end.

(** Lines 224-246: the citation up to, and without, its locator. *)
Definition mla_body (metadata : Metadata) : result string :=
  let authors := get_or (authors metadata) [] in
  let author_text := mla_author_text authors in
  t <- item (title metadata) ;;
  let citation := author_text ++ ". " ++ dq ++ t ++ dq in
  citation <- (if truthy (journal metadata) then
                 j <- item (journal metadata) ;;
                 let citation := citation ++ ". " ++ j in
                 if truthy (volume metadata) && truthy (issue metadata) then
                   v <- item (volume metadata) ;;
                   i <- item (issue metadata) ;;
                   Ok (citation ++ ", vol. " ++ v ++ ", no. " ++ i)
                 else Ok citation
               else Ok citation) ;;
  citation <- (if truthy (publisher metadata) then
                 p <- item (publisher metadata) ;; Ok (citation ++ ", " ++ p)
               else Ok citation) ;;
  if truthy (month metadata) && truthy (year metadata) then
    mo <- item (month metadata) ;;
    y <- item (year metadata) ;;
    Ok (citation ++ ", " ++ Py.slice_to 3 mo ++ ". " ++ y)
  else Ok citation.

Definition format_mla_citation (metadata : Metadata) : result string :=
  if negb (dict_truthy metadata) || negb (truthy (title metadata)) then Ok unable
  else
    citation <- mla_body metadata ;;
    citation <- (if truthy (doi metadata) then
                   d <- item (doi metadata) ;;
                   Ok (citation ++ ". Crossref, https://doi.org/" ++ d)
                 else if truthy (url metadata) then
                   u <- item (url metadata) ;; Ok (citation ++ ". " ++ u)
                 else Ok citation) ;;
    Ok (citation ++ ".").

(** ** Regular expressions

    The fragment of [re] syntax the program uses, with Python's matching
    discipline: leftmost start, greedy repetition, backtracking into a
    continuation.  [Rep p n] is a character class repeated [n] or more times
    ([\d{4,}], [[...]+]); [Grp] is capturing group 1. *)

Module Re.

Inductive regex : Type :=
| Eps
| Chr (c : ascii)
| Any                                  (* [.]: any character but newline *)
| Rep (p : ascii -> bool) (n : nat)
| Cat (r1 r2 : regex)
| Alt (r1 r2 : regex)
| Grp (r : regex).

Fixpoint lit (s : string) : regex :=
  match s with
  | EmptyString => Eps
  | String c s' => Cat (Chr c) (lit s')
  end.

(** The text read between the position where [s] starts and the one where
    its suffix [s'] starts. *)
Definition consumed (s s' : string) : string :=
  substring 0 (String.length s - String.length s') s.

Section Exec.
Context {A : Type}.

(** Greedy repetition: take one more character when possible, and give the
    rest of the pattern the shorter run only if the longer one failed. *)
Fixpoint rep (p : ascii -> bool) (n : nat) (s : string)
  (k : string -> option A) : option A :=
  let stop := match n with O => k s | S _ => None end in
  match s with
  | EmptyString => stop
  | String c s' =>
      if p c then
        match rep p (Nat.pred n) s' k with
        | Some a => Some a
        | None => stop
        end
      else stop
  end.

Fixpoint exec (r : regex) (s : string) (g : option string)
  (k : string -> option string -> option A) : option A :=
  match r with
  | Eps => k s g
  | Chr c =>
      match s with
      | String c' s' => if Ascii.eqb c c' then k s' g else None
      | EmptyString => None
      end
  | Any =>
      match s with
      | String c' s' => if Ascii.eqb c' (ascii_of_nat 10) then None else k s' g
      | EmptyString => None
      end
  | Rep p n => rep p n s (fun s' => k s' g)
  | Cat r1 r2 => exec r1 s g (fun s' g' => exec r2 s' g' k)
  | Alt r1 r2 =>
      match exec r1 s g k with
      | Some a => Some a
      | None => exec r2 s g k
      end
  | Grp r' => exec r' s g (fun s' _ => k s' (Some (consumed s s')))
  end.

End Exec.

Record Match : Type := { group0 : string; group1 : option string }.

(** A match starting exactly at the head of [s]. *)
Definition match_here (r : regex) (s : string) : option Match :=
  exec r s None (fun s' g => Some {| group0 := consumed s s'; group1 := g |}).

(** [re.search(r, s)]: the match at the leftmost position that has one. *)
Fixpoint search (r : regex) (s : string) : option Match :=
  match match_here r s with
  | Some m => Some m
  | None =>
      match s with
      | EmptyString => None
      | String _ s' => search r s'
      end
  end.

(** [re.fullmatch(r, s)] as a truth value. *)
Definition fullmatch (r : regex) (s : string) : bool :=
  match exec r s None (fun s' _ => if Py.is_empty s' then Some tt else None) with
  | Some _ => true
  | None => false
  end.

End Re.

(** [[-._;()/:\w]] *)
Definition doi_char (c : ascii) : bool :=
  match c with
  | "-" | "." | "_" | ";" | "(" | ")" | "/" | ":" => true
  | _ => Py.is_word c
  end%char.

(** [r'10\.\d{4,}/[-._;()/:\w]+'] *)
Definition doi_pattern : Re.regex :=
  Re.Cat (Re.lit "10.")
    (Re.Cat (Re.Rep Py.is_digit 4)
       (Re.Cat (Re.Chr "/") (Re.Rep doi_char 1))).

(** [r'arxiv.org/(?:abs|pdf)/(\d+\.\d+)']: the dot of [arxiv.org] is not
    escaped. *)
Definition arxiv_pattern : Re.regex :=
  Re.Cat (Re.lit "arxiv")
    (Re.Cat Re.Any
       (Re.Cat (Re.lit "org/")
          (Re.Cat (Re.Alt (Re.lit "abs") (Re.lit "pdf"))
             (Re.Cat (Re.Chr "/")
                (Re.Grp (Re.Cat (Re.Rep Py.is_digit 1)
                           (Re.Cat (Re.Chr ".") (Re.Rep Py.is_digit 1)))))))).

(** ** The outside world

    What the program receives from [requests], the parsers and the clock.
    The registry's JSON is typed after the CrossRef schema the code reads:
    every key may be absent and every list may be empty. *)

Record Request : Type := {
  req_url : string;
  req_headers : list (string * string)
}.

Record Response : Type := { body : string }.

(** One entry of [date-parts]: a number, [null], or the [''] of the code's
    default [[['']]]. *)
Inductive DatePart : Type :=
| DInt (z : Z)
| DNull
| DStr (s : string).

Definition str_part (p : DatePart) : string :=
  match p with
  | DInt z => Py.str_int z
  | DNull => "None"
  | DStr s => s
  end.

Record Person : Type := { given : option string; family : option string }.

Record PubDate : Type := { date_parts : option (list (list DatePart)) }.

Record Work : Type := {
  w_title : option (list string);
  w_author : option (list Person);
  w_published_print : option PubDate;
  w_container_title : option (list string);
  w_volume : option string;
  w_issue : option string;
  w_publisher : option string
}.

(** The decoded JSON document; [message] is [None] when the key is missing. *)
Record Document : Type := { message : option Work }.

(** An [xml.etree] element: qualified tag, text, children. *)
#[warnings="-register-all"]
Inductive Element : Type :=
| Elem (tag : string) (text : option string) (children : list Element).

Definition el_tag (e : Element) : string := let (t, _, _) := e in t.
Definition el_text (e : Element) : option string := let (_, t, _) := e in t.
Definition el_children (e : Element) : list Element := let (_, _, c) := e in c.

(** A [bs4] tag; a soup is the list of its tags in document order. *)
Record Tag : Type := {
  tag_name : string;
  tag_attrs : list (string * string);
  tag_string : option string
}.

Definition Soup : Type := list Tag.

Record DateTime : Type := { dt_year : Z; dt_month : nat }.

Record World : Type := {
  (** [requests.get(url, headers=...)]; the number counts earlier requests. *)
  requests_get : nat -> Request -> result Response;
  (** [response.json()] *)
  json : Response -> result Document;
  (** [ET.fromstring(response.content)] *)
  ET_fromstring : string -> result Element;
  (** [BeautifulSoup(response.text, 'html.parser')] *)
  BeautifulSoup : string -> result Soup;
  (** [datetime.now()]; the number counts earlier readings of the clock. *)
  datetime_now : nat -> DateTime;
  (** [datetime.strptime(s, '%Y-%m-%d')] *)
  strptime_ymd : string -> result DateTime;
  (** [datetime.fromisoformat(s)] *)
  fromisoformat : string -> result DateTime
}.

(** [date.strftime('%B')] *)
Definition month_name (d : DateTime) : string :=
  nth (dt_month d - 1)
    ["January"; "February"; "March"; "April"; "May"; "June"; "July";
     "August"; "September"; "October"; "November"; "December"] "".

(** ** The monad of the effectful code *)

Record State : Type := {
  sent : list Request;      (* HTTP requests issued, oldest first *)
  clock_reads : nat;        (* readings of the clock so far *)
  page : list string        (* texts written to the page, oldest first *)
}.

Definition start : State := {| sent := []; clock_reads := 0; page := [] |}.

Definition M (A : Type) : Type := State -> result A * State.

Definition mret {A} (a : A) : M A := fun st => (Ok a, st).

Definition mbind {A B} (c : M A) (k : A -> M B) : M B :=
  fun st =>
    match c st with
    | (Ok a, st') => k a st'
    | (Raise e, st') => (Raise e, st')
    end.

Notation "x <~ c ;; k" := (mbind c (fun x => k))
  (at level 61, c at next level, right associativity).

Definition lift {A} (r : result A) : M A := fun st => (r, st).

(** [try: body  except: return None] *)
Definition try_except {A} (body : M (option A)) : M (option A) :=
  fun st =>
    match body st with
    | (Ok v, st') => (Ok v, st')
    | (Raise _, st') => (Ok None, st')
    end.

(** [bool(metadata)] for the value an extractor returned. *)
Definition meta_truthy (v : option Metadata) : bool :=
  match v with
  | Some m => dict_truthy m
  | None => false
  end.

(** ** Dictionary updates: [metadata[k] = v] *)

Definition set_title (m : Metadata) (v : option string) : Metadata :=
  {| title := v; authors := authors m; year := year m; month := month m;
     journal := journal m; volume := volume m; issue := issue m;
     doi := doi m; url := url m; publisher := publisher m |}.

Definition set_authors (m : Metadata) (v : option (list (option string)))
  : Metadata :=
  {| title := title m; authors := v; year := year m; month := month m;
     journal := journal m; volume := volume m; issue := issue m;
     doi := doi m; url := url m; publisher := publisher m |}.

Definition set_year (m : Metadata) (v : option string) : Metadata :=
  {| title := title m; authors := authors m; year := v; month := month m;
     journal := journal m; volume := volume m; issue := issue m;
     doi := doi m; url := url m; publisher := publisher m |}.

Definition set_month (m : Metadata) (v : option string) : Metadata :=
  {| title := title m; authors := authors m; year := year m; month := v;
     journal := journal m; volume := volume m; issue := issue m;
     doi := doi m; url := url m; publisher := publisher m |}.

Definition set_journal (m : Metadata) (v : option string) : Metadata :=
  {| title := title m; authors := authors m; year := year m; month := month m;
     journal := v; volume := volume m; issue := issue m;
     doi := doi m; url := url m; publisher := publisher m |}.

Definition set_volume (m : Metadata) (v : option string) : Metadata :=
  {| title := title m; authors := authors m; year := year m; month := month m;
     journal := journal m; volume := v; issue := issue m;
     doi := doi m; url := url m; publisher := publisher m |}.

Definition set_issue (m : Metadata) (v : option string) : Metadata :=
  {| title := title m; authors := authors m; year := year m; month := month m;
     journal := journal m; volume := volume m; issue := v;
     doi := doi m; url := url m; publisher := publisher m |}.

Definition set_url (m : Metadata) (v : option string) : Metadata :=
  {| title := title m; authors := authors m; year := year m; month := month m;
     journal := journal m; volume := volume m; issue := issue m;
     doi := doi m; url := v; publisher := publisher m |}.

(** ** Reading XML and HTML *)

(** [{'atom': 'http://www.w3.org/2005/Atom'}] applied to ['atom:name']. *)
Definition atom (name : string) : string :=
  "{http://www.w3.org/2005/Atom}" ++ name.

(** [e.find(path, ns)] and [e.findall(path, ns)] among the children. *)
Definition find (e : Element) (qname : string) : option Element :=
  List.find (fun c => el_tag c =? qname) (el_children e).

Definition findall (e : Element) (qname : string) : list Element :=
  List.filter (fun c => el_tag c =? qname) (el_children e).

(** [x.text] where [x] may be [None]. *)
Definition text_of (e : option Element) : result (option string) :=
  match e with
  | Some e' => Ok (el_text e')
  | None => Raise AttributeError
  end.

(** [t.strip()] and [t[:n]] where [t] may be [None]. *)
Definition strip_of (t : option string) : result string :=
  match t with
  | Some s => Ok (Py.strip s)
  | None => Raise AttributeError
  end.

Definition slice_of (n : nat) (t : option string) : result string :=
  match t with
  | Some s => Ok (Py.slice_to n s)
  | None => Raise TypeError
  end.

Fixpoint assoc (k : string) (l : list (string * string)) : option string :=
  match l with
  | [] => None
  | (k', v) :: l' => if k' =? k then Some v else assoc k l'
  end.

(** The tag is a [name] element whose attribute [k] equals [v]. *)
Definition tag_matches (name k v : string) (t : Tag) : bool :=
  (tag_name t =? name)
  && match assoc k (tag_attrs t) with
     | Some v' => v' =? v
     | None => false
     end.

(** [soup.find(name, {k: v})], [soup.find_all(name, {k: v})], [soup.title]. *)
Definition soup_find (soup : Soup) (name k v : string) : option Tag :=
  List.find (tag_matches name k v) soup.

Definition soup_find_all (soup : Soup) (name k v : string) : list Tag :=
  List.filter (tag_matches name k v) soup.

Definition soup_title (soup : Soup) : option Tag :=
  List.find (fun t => tag_name t =? "title") soup.

(** [tag.get('content', '')] *)
Definition content (t : Tag) : string := get_or (assoc "content" (tag_attrs t)) "".

(** [a or b] on values that are a tag or [None]; a tag is always truthy. *)
Definition or_else {A} (a b : option A) : option A :=
  match a with
  | Some _ => a
  | None => b
  end.

(** ** Extractors and classifier *)

Section Pipeline.

Variable W : World.

Definition http_get (url : string) (headers : list (string * string))
  : M Response :=
  fun st =>
    let req := {| req_url := url; req_headers := headers |} in
    (requests_get W (List.length (sent st)) req,
     {| sent := (sent st ++ [req])%list;
        clock_reads := clock_reads st; page := page st |}).

Definition now : M DateTime :=
  fun st =>
    (Ok (datetime_now W (clock_reads st)),
     {| sent := sent st; clock_reads := S (clock_reads st); page := page st |}).

Definition st_write (text : string) : M unit :=
  fun st =>
    (Ok tt,
     {| sent := sent st; clock_reads := clock_reads st;
        page := (page st ++ [text])%list |}).

(** The dictionary built from the registry's [message]. *)
Definition doi_record (doi : string) (data : Work) : result Metadata :=
  t <- Py.item0 (get_or (w_title data) [""]) ;;
  let names :=
    map (fun author =>
           Some (get_or (given author) "" ++ " " ++ get_or (family author) ""))
        (get_or (w_author data) []) in
  let published := get_or (w_published_print data) {| date_parts := None |} in
  parts <- Py.item0 (get_or (date_parts published) [[DStr ""]]) ;;
  part <- Py.item0 parts ;;
  j <- Py.item0 (get_or (w_container_title data) [""]) ;;
  Ok {| title := Some t;
        authors := Some names;
        year := Some (str_part part);
        month := Some "December";
        journal := Some j;
        volume := Some (get_or (w_volume data) "");
        issue := Some (get_or (w_issue data) "");
        doi := Some doi;
        url := Some ("https://doi.org/" ++ doi);
        publisher := Some (get_or (w_publisher data) "") |}.

Definition extract_doi_metadata (doi : string) : M (option Metadata) :=
  try_except (
    let headers := [("Accept", "application/json")] in
    response <~ http_get ("https://api.crossref.org/works/" ++ doi) headers ;;
    lift (document <- json W response ;;
          data <- item (message document) ;;
          metadata <- doi_record doi data ;;
          Ok (Some metadata))).

(** The dictionary built from the feed's [entry]. *)
Definition arxiv_record (arxiv_id : string) (entry : Element) : result Metadata :=
  t <- text_of (find entry (atom "title")) ;;
  t <- strip_of t ;;
  names <- comprehension (fun author => text_of (find author (atom "name")))
             (findall entry (atom "author")) ;;
  p <- text_of (find entry (atom "published")) ;;
  y <- slice_of 4 p ;;
  p' <- text_of (find entry (atom "published")) ;;
  day <- slice_of 10 p' ;;
  date <- strptime_ymd W day ;;
  Ok {| title := Some t;
        authors := Some names;
        year := Some y;
        month := Some (month_name date);
        journal := Some "arXiv";
        volume := None;
        issue := None;
        doi := None;
        url := Some ("https://arxiv.org/abs/" ++ arxiv_id);
        publisher := Some "Cornell University" |}.

Definition extract_arxiv_metadata (arxiv_id : string) : M (option Metadata) :=
  try_except (
    let api_url := "http://export.arxiv.org/api/query?id_list=" ++ arxiv_id in
    response <~ http_get api_url [] ;;
    lift (root <- ET_fromstring W (body response) ;;
          match find root (atom "entry") with
          | Some entry =>
              metadata <- arxiv_record arxiv_id entry ;;
              Ok (Some metadata)
          | None => Ok None       (* falls off the end of the function *)
          end)).

(** Lines 72-120: the fields scraped from the page's tags. *)
Definition scrape (soup : Soup) (metadata : Metadata) : Metadata :=
  let title_tag :=
    or_else (soup_find soup "meta" "property" "og:title")
      (or_else (soup_find soup "meta" "property" "dc:title")
         (soup_find soup "meta" "name" "citation_title")) in
  let metadata :=
    match title_tag with
    | Some tg => set_title metadata (Some (content tg))
    | None =>
        match soup_title soup with
        | Some tl => set_title metadata (tag_string tl)
        | None => metadata
        end
    end in
  let author_tags := soup_find_all soup "meta" "name" "citation_author" in
  let metadata :=
    match author_tags with
    | _ :: _ =>
        set_authors metadata (Some (map (fun tg => Some (content tg)) author_tags))
    | [] =>
        let author_tag :=
          or_else (soup_find soup "meta" "name" "author")
            (soup_find soup "meta" "property" "article:author") in
        match author_tag with
        | Some tg => set_authors metadata (Some [Some (content tg)])
        | None => metadata
        end
    end in
  let date_tag :=
    or_else (soup_find soup "meta" "name" "citation_publication_date")
      (soup_find soup "meta" "property" "article:published_time") in
  let metadata :=
    match date_tag with
    | Some tg =>
        let date_str := content tg in
        match (d <- Py.item0 (Py.split "T" date_str) ;; fromisoformat W d) with
        | Ok date =>
            set_month (set_year metadata (Some (Py.str_int (dt_year date))))
              (Some (month_name date))
        | Raise _ => metadata                         (* except: pass *)
        end
    | None => metadata
    end in
  let metadata :=
    match soup_find soup "meta" "name" "citation_journal_title" with
    | Some tg => set_journal metadata (Some (content tg))
    | None => metadata
    end in
  let metadata :=
    match soup_find soup "meta" "name" "citation_volume" with
    | Some tg => set_volume metadata (Some (content tg))
    | None => metadata
    end in
  match soup_find soup "meta" "name" "citation_issue" with
  | Some tg => set_issue metadata (Some (content tg))
  | None => metadata
  end.

Definition extract_general_metadata (url : string) : M (option Metadata) :=
  try_except (
    let headers := [("User-Agent", "Mozilla/5.0")] in
    response <~ http_get url headers ;;
    soup <~ lift (BeautifulSoup W (body response)) ;;
    y <~ now ;;
    mo <~ now ;;
    let metadata :=
      {| title := Some "";
         authors := Some [];
         year := Some (Py.str_int (dt_year y));
         month := Some (month_name mo);
         journal := Some "";
         volume := Some "";
         issue := Some "";
         doi := None;
         url := Some url;
         publisher := Some "" |} in
    mret (Some (scrape soup metadata))).

(** [bool(m)] for the result of [re.search]. *)
Definition matched (m : option Re.Match) : bool :=
  match m with
  | Some _ => true
  | None => false
  end.

(** [doi_match.group(0) if doi_match else url.split('doi.org/')[-1]] *)
Definition doi_candidate (doi_match : option Re.Match) (url : string)
  : result string :=
  match doi_match with
  | Some dm => Ok (Re.group0 dm)
  | None => Py.item_last (Py.split "doi.org/" url)
  end.

(** Lines 136-144: what runs when the DOI step did not return. *)
Definition try_arxiv (url : string) : M (option Metadata) :=
  let arxiv_match := Re.search arxiv_pattern url in
  match arxiv_match with
  | Some am =>
      metadata <~ extract_arxiv_metadata (str_of (Re.group1 am)) ;;
      if meta_truthy metadata then mret metadata
      else extract_general_metadata url
  | None => extract_general_metadata url
  end.

Definition identify_url_type (url : string) : M (option Metadata) :=
  let doi_match := Re.search doi_pattern url in
  if matched doi_match || Py.contains "doi.org" url then
    doi <~ lift (doi_candidate doi_match url) ;;
    metadata <~ extract_doi_metadata doi ;;
    if meta_truthy metadata then mret metadata
    else try_arxiv url
  else try_arxiv url.

Inductive Style : Type := APA | Chicago | MLA.

Definition style_header (style : Style) : string :=
  match style with
  | APA => "American Psychological Association Style"
  | Chicago => "Chicago Style"
  | MLA => "Modern Language Association Style"
  end.

Definition format_citation (style : Style) (metadata : Metadata) : result string :=
  match style with
  | APA => format_apa_citation metadata
  | Chicago => format_chicago_citation metadata
  | MLA => format_mla_citation metadata
  end.

(** [main] with the values of its two widgets; the style sheet and the
    copy button write no text. *)
Definition main (url : string) (style : Style) : M unit :=
  if negb (Py.is_empty url) then
    metadata <~ identify_url_type url ;;
    match metadata with
    | Some md =>
        if dict_truthy md then
          _ <~ st_write (style_header style) ;;
          citation <~ lift (format_citation style md) ;;
          st_write citation
        else mret tt
    | None => mret tt
    end
  else mret tt.

End Pipeline.

(** ** Vocabulary of the statements *)

(** The author entry is a string. *)
Definition is_name (a : option string) : Prop := exists s, a = Some s.

(** The author entry is a string with at least one whitespace-separated
    token. *)
Definition has_token (a : option string) : Prop :=
  exists s, a = Some s /\ Py.split_ws s <> [].

(** The string is empty or made of whitespace only. *)
Fixpoint all_space (s : string) : bool :=
  match s with
  | EmptyString => true
  | String c s' => Py.is_space c && all_space s'
  end.

(** Every character of the string is in the class. *)
Fixpoint all_chars (p : ascii -> bool) (s : string) : bool :=
  match s with
  | EmptyString => true
  | String c s' => p c && all_chars p s'
  end.

(** The string starts with a character of the class. *)
Definition starts_with (p : ascii -> bool) (s : string) : bool :=
  match s with
  | EmptyString => false
  | String c _ => p c
  end.

(** The request the DOI extractor sends for [doi]. *)
Definition doi_request (doi : string) : Request :=
  {| req_url := "https://api.crossref.org/works/" ++ doi;
     req_headers := [("Accept", "application/json")] |}.

(** The request the arXiv extractor sends for [arxiv_id]. *)
Definition arxiv_request (arxiv_id : string) : Request :=
  {| req_url := "http://export.arxiv.org/api/query?id_list=" ++ arxiv_id;
     req_headers := [] |}.

(** The request the generic extractor sends for [url]. *)
Definition general_request (url : string) : Request :=
  {| req_url := url; req_headers := [("User-Agent", "Mozilla/5.0")] |}.

(** The state after one more request. *)
Definition after_request (st : State) (req : Request) : State :=
  {| sent := (sent st ++ [req])%list;
     clock_reads := clock_reads st; page := page st |}.

(** The string is one whitespace-free, nonempty token. *)
Definition is_token (t : string) : bool :=
  negb (Py.is_empty t) && all_chars (fun c => negb (Py.is_space c)) t.

(** The first character of a token, as a string. *)
Definition initial (t : string) : string :=
  match t with
  | EmptyString => EmptyString
  | String c _ => String c EmptyString
  end.

(** The author string built from a registry entry. *)
Definition person_name (p : Person) : string :=
  get_or (given p) "" ++ " " ++ get_or (family p) "".

(** The title a page's tags give, in the order the code tries them. *)
Definition scraped_title (soup : Soup) (default : option string) : option string :=
  match soup_find soup "meta" "property" "og:title" with
  | Some tg => Some (content tg)
  | None =>
      match soup_find soup "meta" "property" "dc:title" with
      | Some tg => Some (content tg)
      | None =>
          match soup_find soup "meta" "name" "citation_title" with
          | Some tg => Some (content tg)
          | None =>
              match soup_title soup with
              | Some tl => tag_string tl
              | None => default
              end
          end
      end
  end.

(** The record the generic extractor starts from. *)
Definition page_defaults (url : string) (y mo : DateTime) : Metadata :=
  {| title := Some ""; authors := Some [];
     year := Some (Py.str_int (dt_year y)); month := Some (month_name mo);
     journal := Some ""; volume := Some ""; issue := Some "";
     doi := None; url := Some url; publisher := Some "" |}.

(** ** Sample inputs *)

Module Sample.

Definition paper : Metadata :=
  {| title := Some "Example Paper";
     authors := Some [Some "Jane Doe"; Some "John Smith"; Some "Wei Li"];
     year := Some "2023";
     month := Some "December";
     journal := Some "Journal of Examples";
     volume := Some "5";
     issue := Some "2";
     doi := Some "10.1000/xyz123";
     url := Some "https://example.org/paper";
     publisher := Some "Example Press" |}.

(** Scenario 1: the registry's answer. *)
Definition work : Work :=
  {| w_title := Some ["Example Paper"];
     w_author := Some [{| given := Some "Jane"; family := Some "Doe" |}];
     w_published_print := Some {| date_parts := Some [[DInt 2023]] |};
     w_container_title := Some ["Journal of Examples"];
     w_volume := Some "5";
     w_issue := Some "2";
     w_publisher := Some "Example Press" |}.

(** The same answer without a print-publication date. *)
Definition undated_work : Work :=
  {| w_title := Some ["Example Paper"];
     w_author := Some [{| given := Some "Jane"; family := Some "Doe" |}];
     w_published_print := None;
     w_container_title := Some ["Journal of Examples"];
     w_volume := Some "5";
     w_issue := Some "2";
     w_publisher := Some "Example Press" |}.

(** Scenario 2: the arXiv feed. *)
Definition feed : Element :=
  Elem (atom "feed") None
    [Elem (atom "title") (Some "ArXiv Query") [];
     Elem (atom "entry") None
       [Elem (atom "id") (Some "http://arxiv.org/abs/2301.12345v1") [];
        Elem (atom "published") (Some "2023-05-10T00:00:00Z") [];
        Elem (atom "title") (Some "Deep Learning Survey") [];
        Elem (atom "author") None [Elem (atom "name") (Some "Alice Smith") []]]].

Definition page_tags : Soup :=
  [{| tag_name := "title"; tag_attrs := []; tag_string := Some "A page" |}].

(** A world in which every request is answered, the registry with [w]. *)
Definition world (w : Work) : World :=
  {| requests_get := fun _ _ => Ok {| body := "" |};
     json := fun _ => Ok {| message := Some w |};
     ET_fromstring := fun _ => Ok feed;
     BeautifulSoup := fun _ => Ok page_tags;
     datetime_now := fun _ => {| dt_year := 2026; dt_month := 11 |};
     strptime_ymd := fun _ => Ok {| dt_year := 2023; dt_month := 5 |};
     fromisoformat := fun _ => Raise ValueError |}.

(** A world in which the registry cannot be reached. *)
Definition registry_down : World :=
  {| requests_get := fun _ req =>
       if prefix "https://api.crossref.org/" (req_url req)
       then Raise RequestException else Ok {| body := "" |};
     json := fun _ => Raise JSONDecodeError;
     ET_fromstring := fun _ => Raise ParseError;
     BeautifulSoup := fun _ => Ok page_tags;
     datetime_now := fun _ => {| dt_year := 2026; dt_month := 11 |};
     strptime_ymd := fun _ => Raise ValueError;
     fromisoformat := fun _ => Raise ValueError |}.

(** A registry answer whose only author is an organisation: the entry has
    neither a given nor a family name. *)
Definition org_work : Work :=
  {| w_title := Some ["Annual Report"];
     w_author := Some [{| given := None; family := None |}];
     w_published_print := Some {| date_parts := Some [[DInt 2020]] |};
     w_container_title := Some ["Reports"];
     w_volume := None;
     w_issue := None;
     w_publisher := Some "Example Press" |}.

(** A page that dates itself through a meta tag. *)
Definition dated_page : Soup :=
  [{| tag_name := "title"; tag_attrs := []; tag_string := Some "A page" |};
   {| tag_name := "meta";
      tag_attrs := [("property", "article:published_time");
                    ("content", "2024-03-05T10:00:00Z")];
      tag_string := None |}].

(** A world whose [fromisoformat] reads one date and rejects the rest. *)
Definition dated_world : World :=
  {| requests_get := fun _ _ => Ok {| body := "" |};
     json := fun _ => Raise JSONDecodeError;
     ET_fromstring := fun _ => Ok feed;
     BeautifulSoup := fun _ => Ok dated_page;
     datetime_now := fun _ => {| dt_year := 2026; dt_month := 11 |};
     strptime_ymd := fun _ => Ok {| dt_year := 2023; dt_month := 5 |};
     fromisoformat := fun s =>
       if s =? "2024-03-05" then Ok {| dt_year := 2024; dt_month := 3 |}
       else Raise ValueError |}.

(** A feed whose entry has no title element. *)
Definition bare_feed : Element :=
  Elem (atom "feed") None
    [Elem (atom "entry") None
       [Elem (atom "published") (Some "2023-05-10T00:00:00Z") []]].

Definition bare_world : World :=
  {| requests_get := fun _ _ => Ok {| body := "" |};
     json := fun _ => Raise JSONDecodeError;
     ET_fromstring := fun _ => Ok bare_feed;
     BeautifulSoup := fun _ => Ok page_tags;
     datetime_now := fun _ => {| dt_year := 2026; dt_month := 11 |};
     strptime_ymd := fun _ => Ok {| dt_year := 2023; dt_month := 5 |};
     fromisoformat := fun _ => Raise ValueError |}.

End Sample.

(** * Properties *)

(** ** Basic facts about the primitives *)

Lemma item_truthy (v : option string) :
  truthy v = true -> item v = Ok (get_or v "").
Proof. destruct v; simpl; [reflexivity | discriminate]. Qed.

Lemma truthy_nonempty (t : string) : t <> "" -> truthy (Some t) = true.
Proof. destruct t; simpl; [congruence | reflexivity]. Qed.

Lemma title_guard (m : Metadata) (t : string) :
  title m = Some t -> t <> "" ->
  negb (dict_truthy m) || negb (truthy (title m)) = false.
Proof.
  intros Ht Hne. unfold dict_truthy. rewrite Ht.
  rewrite (truthy_nonempty t Hne). reflexivity.
Qed.

Lemma set_url_same (m : Metadata) : set_url m (url m) = m.
Proof. destruct m; reflexivity. Qed.

Lemma append_nil_r (s : string) : s ++ "" = s.
Proof. induction s; simpl; congruence. Qed.

Lemma append_assoc (a b c : string) : (a ++ b) ++ c = a ++ b ++ c.
Proof. induction a; simpl; congruence. Qed.

(** Deciding every [truthy] test of a formatter and reading the field it
    guards. *)
Ltac decide_fields :=
  repeat match goal with
    | |- context [truthy ?v] =>
        let E := fresh "E" in
        destruct (truthy v) eqn:E;
        [ rewrite ?(item_truthy v E) | ]; simpl
    end.

(** ** The failure message *)

(** C1: a record whose title is empty (or absent) makes each of the three
    formatters return exactly "Unable to generate citation.", whatever the
    other fields hold. *)
Theorem empty_title_unable (m : Metadata) :
  title m = Some "" \/ title m = None ->
  format_apa_citation m = Ok "Unable to generate citation."
  /\ format_chicago_citation m = Ok "Unable to generate citation."
  /\ format_mla_citation m = Ok "Unable to generate citation.".
Proof.
  intros H.
  assert (G : negb (dict_truthy m) || negb (truthy (title m)) = true).
  { destruct H as [H | H]; rewrite H; simpl; apply orb_true_r. }
  unfold format_apa_citation, format_chicago_citation, format_mla_citation.
  rewrite G. repeat split.
Qed.

Lemma empty_title_unable_witness :
  let m := set_title Sample.paper (Some "") in
  title m = Some ""
  /\ format_apa_citation m = Ok "Unable to generate citation."
  /\ format_chicago_citation m = Ok "Unable to generate citation."
  /\ format_mla_citation m = Ok "Unable to generate citation.".
Proof.
  split; [reflexivity |].
  apply (empty_title_unable (set_title Sample.paper (Some ""))).
  left; reflexivity.
Defined.

(** ** Splitting on whitespace *)

Lemma split_ws_aux_tokens (s cur t : string) :
  In t (Py.split_ws_aux cur s) -> t <> "".
Proof.
  revert cur. induction s as [| c s IH]; intros cur; simpl.
  - destruct cur; simpl; [tauto |]. intros [<- | []]. discriminate.
  - destruct (Py.is_space c).
    + destruct cur; simpl.
      * apply IH.
      * intros [<- | H]; [discriminate | exact (IH _ H)].
    + apply IH.
Qed.

Lemma split_ws_tokens (s : string) :
  Forall (fun t => t <> "") (Py.split_ws s).
Proof.
  apply Forall_forall. intros t. apply split_ws_aux_tokens.
Qed.

Lemma append_char_nonempty (cur : string) (c : ascii) :
  cur ++ String c "" <> "".
Proof. destruct cur; discriminate. Qed.

Lemma split_ws_aux_nil (s cur : string) :
  Py.split_ws_aux cur s = [] <-> cur = "" /\ all_space s = true.
Proof.
  revert cur. induction s as [| c s IH]; intros cur; simpl.
  - destruct cur; simpl; split; try tauto; try discriminate.
    intros [H _]; discriminate.
  - destruct (Py.is_space c); simpl.
    + destruct cur; simpl.
      * apply IH.
      * split; [discriminate | intros [H _]; discriminate].
    + rewrite IH. split.
      * intros [H _]. destruct (append_char_nonempty _ _ H).
      * intros [_ H]; discriminate.
Qed.

Lemma split_ws_nil (s : string) :
  Py.split_ws s = [] <-> all_space s = true.
Proof.
  unfold Py.split_ws. rewrite split_ws_aux_nil. tauto.
Qed.

(** ** Indexing and comprehensions *)

Lemma item_last_ok {A} (l : list A) :
  l <> [] -> exists x, Py.item_last l = Ok x.
Proof.
  induction l as [| a l IH]; [congruence |]. intros _.
  destruct l as [| b l]; [exists a; reflexivity |].
  destruct IH as [x Hx]; [discriminate |]. exists x. exact Hx.
Qed.

Lemma Forall_removelast {A} (P : A -> Prop) (l : list A) :
  Forall P l -> Forall P (removelast l).
Proof.
  induction 1 as [| a l Ha Hl IH]; simpl; [constructor |].
  destruct l; [constructor | constructor; assumption].
Qed.

Lemma comprehension_ok {A B} (f : A -> result B) (l : list A) :
  Forall (fun x => exists y, f x = Ok y) l ->
  exists r, comprehension f l = Ok r /\ List.length r = List.length l.
Proof.
  induction 1 as [| a l [y Hy] Hl [r [Hr Hlen]]]; simpl.
  - exists []. split; reflexivity.
  - rewrite Hy, Hr. simpl. exists (y :: r). simpl. split; congruence.
Qed.

Lemma first_chars_ok (l : list string) :
  Forall (fun t => t <> "") l ->
  exists r, comprehension Py.first_char l = Ok r.
Proof.
  intros H. destruct (comprehension_ok Py.first_char l) as [r [Hr _]].
  - eapply Forall_impl; [| exact H]. intros t Ht.
    destruct t; [congruence |]. eexists; reflexivity.
  - exists r. exact Hr.
Qed.

(** ** APA author rendering *)

Lemma apa_author_ok (a : option string) :
  has_token a -> exists s, apa_author a = Ok s.
Proof.
  intros [s [-> Hs]]. unfold apa_author. simpl.
  destruct (item_last_ok (Py.split_ws s) Hs) as [family Hf]. rewrite Hf. simpl.
  destruct (first_chars_ok (Py.but_last (Py.split_ws s))) as [r Hr].
  { apply Forall_removelast, split_ws_tokens. }
  rewrite Hr. simpl. eexists; reflexivity.
Qed.

Lemma apa_author_no_token (s : string) :
  Py.split_ws s = [] -> apa_author (Some s) = Raise IndexError.
Proof. intros H. unfold apa_author. simpl. rewrite H. reflexivity. Qed.

Lemma apa_author_text_ok (l : list (option string)) :
  Forall has_token l -> exists s, apa_author_text l = Ok s.
Proof.
  intros H. unfold apa_author_text.
  destruct (1 <? List.length l)%nat eqn:E.
  - destruct (comprehension_ok apa_author l) as [r [Hr Hlen]].
    { eapply Forall_impl; [| exact H]. intros a. apply apa_author_ok. }
    rewrite Hr. simpl.
    destruct (item_last_ok r) as [final Hf].
    { intros ->. simpl in Hlen. rewrite <- Hlen in E. discriminate. }
    rewrite Hf. simpl. eexists; reflexivity.
  - destruct l as [| a l]; [eexists; reflexivity |].
    apply apa_author_ok. inversion H; assumption.
Qed.

Lemma comprehension_no_token (names : list string) :
  Exists (fun a => Py.split_ws a = []) names ->
  comprehension apa_author (map Some names) = Raise IndexError.
Proof.
  induction names as [| a names IH]; intros H; [inversion H |].
  simpl. destruct (Py.split_ws a) eqn:E.
  - rewrite (apa_author_no_token a E). reflexivity.
  - destruct (apa_author_ok (Some a)) as [y Hy].
    { exists a. split; [reflexivity | congruence]. }
    rewrite Hy. simpl. rewrite IH; [reflexivity |].
    inversion H; subst; [congruence | assumption].
Qed.

Lemma apa_author_text_no_token (names : list string) :
  Exists (fun a => Py.split_ws a = []) names ->
  apa_author_text (map Some names) = Raise IndexError.
Proof.
  intros H. unfold apa_author_text.
  destruct (1 <? List.length (map Some names))%nat eqn:L.
  - rewrite (comprehension_no_token names H). reflexivity.
  - destruct names as [| a names]; [inversion H |].
    destruct names as [| b names]; [| discriminate L]. simpl.
    apply apa_author_no_token.
    inversion H as [? ? Ha | ? ? Hl]; subst; [exact Ha | inversion Hl].
Qed.

(** ** The shape of the citations *)

Lemma apa_body_shape (m : Metadata) (t a : string) :
  title m = Some t ->
  apa_author_text (get_or (authors m) []) = Ok a ->
  exists rest, apa_body m = Ok (a ++ " (" ++ rest).
Proof.
  intros Ht Ha. unfold apa_body. rewrite Ha, Ht. simpl.
  decide_fields; rewrite ?append_assoc; eexists; reflexivity.
Qed.

Lemma apa_shape (m : Metadata) (t a : string) :
  title m = Some t -> t <> "" ->
  apa_author_text (get_or (authors m) []) = Ok a ->
  exists rest, format_apa_citation m = Ok (a ++ " (" ++ rest).
Proof.
  intros Ht Hne Ha. unfold format_apa_citation.
  rewrite (title_guard m t Ht Hne).
  destruct (apa_body_shape m t a Ht Ha) as [rest ->]. simpl.
  decide_fields; rewrite ?append_assoc; eexists; reflexivity.
Qed.

Lemma apa_raises (m : Metadata) (t : string) (e : exn) :
  title m = Some t -> t <> "" ->
  apa_author_text (get_or (authors m) []) = Raise e ->
  format_apa_citation m = Raise e.
Proof.
  intros Ht Hne Ha. unfold format_apa_citation.
  rewrite (title_guard m t Ht Hne). unfold apa_body. rewrite Ha. reflexivity.
Qed.

Lemma chicago_author_text_ok (l : list (option string)) :
  Forall is_name l -> exists s, chicago_author_text l = Ok (Some s).
Proof.
  intros H. unfold chicago_author_text.
  destruct (1 <? List.length l)%nat eqn:L.
  - unfold join_of.
    destruct (comprehension_ok
                (fun v : option string =>
                   match v with Some s => Ok s | None => Raise TypeError end)
                (Py.but_last l)) as [r [Hr _]].
    { apply Forall_removelast. eapply Forall_impl; [| exact H].
      intros a [s ->]. exists s; reflexivity. }
    rewrite Hr. simpl.
    destruct (item_last_ok l) as [final Hf].
    { intros ->. discriminate L. }
    rewrite Hf. simpl.
    assert (Hn : is_name final).
    { clear - H Hf. induction H as [| a l Ha Hl IH]; [discriminate |].
      destruct l; [injection Hf as <-; exact Ha | apply IH; exact Hf]. }
    destruct Hn as [s ->]. simpl. eexists; reflexivity.
  - destruct l as [| a l]; [eexists; reflexivity |].
    inversion H as [| ? ? [s ->] ?]; subst. eexists; reflexivity.
Qed.

Lemma chicago_body_ok (m : Metadata) (t : string) :
  title m = Some t ->
  Forall is_name (get_or (authors m) []) ->
  exists c, chicago_body m = Ok c.
Proof.
  intros Ht Hn. unfold chicago_body.
  destruct (chicago_author_text_ok _ Hn) as [s ->]. rewrite Ht. simpl.
  decide_fields; eexists; reflexivity.
Qed.

Lemma mla_body_shape (m : Metadata) (t : string) :
  title m = Some t ->
  exists rest,
    forall names,
      mla_body (set_authors m names)
      = Ok (mla_author_text (get_or names []) ++ ". " ++ dq ++ t ++ dq ++ rest).
Proof.
  intros Ht. unfold mla_body. simpl. rewrite Ht. simpl.
  decide_fields; eexists; intros names; rewrite ?append_assoc; simpl;
    rewrite ?append_assoc; reflexivity.
Qed.

(** ** Claims about author rendering *)

(** C10: the APA formatter returns a citation for every record with a
    nonempty title whose author strings each have at least one token
    ("Cher" rendering as "Cher, ."), and raises [IndexError] as soon as one
    author string is empty or all whitespace. *)
Theorem apa_total_iff_tokens (m : Metadata) (t : string) (names : list string) :
  title m = Some t -> t <> "" ->
  authors m = Some (map Some names) ->
  (Forall (fun a => Py.split_ws a <> []) names ->
     exists citation, format_apa_citation m = Ok citation)
  /\ (Exists (fun a => Py.split_ws a = []) names ->
        format_apa_citation m = Raise IndexError)
  /\ (forall a, Py.split_ws a = [] <-> all_space a = true)
  /\ (names = ["Cher"] ->
        exists rest, format_apa_citation m = Ok ("Cher, ." ++ " (" ++ rest)).
Proof.
  intros Ht Hne Ha. repeat split.
  - intros Hall.
    destruct (apa_author_text_ok (map Some names)) as [a Hat].
    { apply Forall_forall. intros x Hx. apply in_map_iff in Hx.
      destruct Hx as [s [<- Hs]]. exists s. split; [reflexivity |].
      rewrite Forall_forall in Hall. apply Hall. exact Hs. }
    destruct (apa_shape m t a Ht Hne) as [rest Hr].
    { rewrite Ha. exact Hat. }
    eexists. exact Hr.
  - intros Hbad. apply (apa_raises m t IndexError Ht Hne).
    rewrite Ha. apply apa_author_text_no_token. exact Hbad.
  - apply split_ws_nil.
  - apply split_ws_nil.
  - intros ->. apply (apa_shape m t "Cher, ." Ht Hne). rewrite Ha. reflexivity.
Qed.

Lemma apa_total_iff_tokens_witness :
  format_apa_citation
    (set_authors Sample.paper (Some [Some "Cher"]))
    = Ok "Cher, . (2023, December). Example Paper. Journal of Examples, 5(2). https://doi.org/10.1000/xyz123"
  /\ format_apa_citation
       (set_authors Sample.paper (Some [Some "Jane Doe"; Some " "]))
     = Raise IndexError
  /\ exists rest,
       format_apa_citation (set_authors Sample.paper (Some (map Some ["Cher"])))
       = Ok ("Cher, ." ++ " (" ++ rest).
Proof.
  split; [reflexivity |]. split.
  - apply (apa_total_iff_tokens
             (set_authors Sample.paper (Some (map Some ["Jane Doe"; " "])))
             "Example Paper" ["Jane Doe"; " "]);
      [reflexivity | discriminate | reflexivity |].
    right. left. reflexivity.
  - apply (apa_total_iff_tokens
             (set_authors Sample.paper (Some (map Some ["Cher"])))
             "Example Paper" ["Cher"]);
      [reflexivity | discriminate | reflexivity | reflexivity].
Defined.

(** C6: the APA author segment of the single author "Jane Ann Doe" is
    "Doe, J. A.", that of "Jane Doe" and "John Smith" is
    "Doe, J., & Smith, J.", and the citation of a record with these authors
    starts with that segment. *)
Theorem apa_author_segments (m : Metadata) (t : string) :
  title m = Some t -> t <> "" ->
  apa_author_text [Some "Jane Ann Doe"] = Ok "Doe, J. A."
  /\ apa_author_text [Some "Jane Doe"; Some "John Smith"]
     = Ok "Doe, J., & Smith, J."
  /\ (authors m = Some [Some "Jane Ann Doe"] ->
        exists rest, format_apa_citation m = Ok ("Doe, J. A." ++ " (" ++ rest))
  /\ (authors m = Some [Some "Jane Doe"; Some "John Smith"] ->
        exists rest,
          format_apa_citation m = Ok ("Doe, J., & Smith, J." ++ " (" ++ rest)).
Proof.
  intros Ht Hne. repeat split.
  - intros Ha. apply (apa_shape m t _ Ht Hne). rewrite Ha. reflexivity.
  - intros Ha. apply (apa_shape m t _ Ht Hne). rewrite Ha. reflexivity.
Qed.

Lemma apa_author_segments_witness :
  format_apa_citation (set_authors Sample.paper (Some [Some "Jane Ann Doe"]))
    = Ok "Doe, J. A. (2023, December). Example Paper. Journal of Examples, 5(2). https://doi.org/10.1000/xyz123"
  /\ exists rest,
       format_apa_citation
         (set_authors Sample.paper (Some [Some "Jane Doe"; Some "John Smith"]))
       = Ok ("Doe, J., & Smith, J." ++ " (" ++ rest).
Proof.
  split; [reflexivity |].
  apply (apa_author_segments
           (set_authors Sample.paper (Some [Some "Jane Doe"; Some "John Smith"]))
           "Example Paper");
    [reflexivity | discriminate | reflexivity].
Defined.

Lemma mla_shape (m : Metadata) (t : string) :
  title m = Some t -> t <> "" ->
  exists rest,
    forall names,
      format_mla_citation (set_authors m names)
      = Ok (mla_author_text (get_or names []) ++ ". " ++ dq ++ t ++ dq ++ rest).
Proof.
  intros Ht Hne. destruct (mla_body_shape m t Ht) as [rest Hb].
  exists (rest
          ++ (if truthy (doi m)
              then ". Crossref, https://doi.org/" ++ get_or (doi m) ""
              else if truthy (url m) then ". " ++ get_or (url m) "" else "")
          ++ ".").
  intros names. unfold format_mla_citation.
  rewrite (title_guard (set_authors m names) t Ht Hne), Hb.
  cbn [rbind doi url set_authors].
  destruct (truthy (doi m)) eqn:Ed.
  - rewrite (item_truthy _ Ed). cbn [rbind]. rewrite !append_assoc. reflexivity.
  - destruct (truthy (url m)) eqn:Eu.
    + rewrite (item_truthy _ Eu). cbn [rbind]. rewrite !append_assoc. reflexivity.
    + cbn [rbind]. rewrite !append_assoc. reflexivity.
Qed.

(** C7: for a record with a nonempty title and more than one author, the
    MLA citation starts with the first author's name verbatim followed by
    ", et al", and is the same whatever the later authors are. *)
Theorem mla_et_al (m : Metadata) (t first : string)
  (second : option string) (others : list (option string)) :
  title m = Some t -> t <> "" ->
  authors m = Some (Some first :: second :: others) ->
  mla_author_text (Some first :: second :: others) = first ++ ", et al"
  /\ exists rest,
       format_mla_citation m
       = Ok ((first ++ ", et al") ++ ". " ++ dq ++ t ++ dq ++ rest)
       /\ forall second' others',
            format_mla_citation
              (set_authors m (Some (Some first :: second' :: others')))
            = Ok ((first ++ ", et al") ++ ". " ++ dq ++ t ++ dq ++ rest).
Proof.
  intros Ht Hne Ha. split; [reflexivity |].
  destruct (mla_shape m t Ht Hne) as [rest Hf].
  exists rest. split.
  - replace m with (set_authors m (Some (Some first :: second :: others)))
      at 1 by (rewrite <- Ha; destruct m; reflexivity).
    apply Hf.
  - intros second' others'. apply Hf.
Qed.

Lemma mla_et_al_witness :
  format_mla_citation Sample.paper
    = Ok ("Jane Doe, et al. " ++ dq ++ "Example Paper" ++ dq
          ++ ". Journal of Examples, vol. 5, no. 2, Example Press, Dec. 2023. Crossref, https://doi.org/10.1000/xyz123.")
  /\ exists rest,
       format_mla_citation Sample.paper
       = Ok (("Jane Doe" ++ ", et al") ++ ". " ++ dq ++ "Example Paper" ++ dq ++ rest)
       /\ forall second' others',
            format_mla_citation
              (set_authors Sample.paper
                 (Some (Some "Jane Doe" :: second' :: others')))
            = Ok (("Jane Doe" ++ ", et al") ++ ". " ++ dq ++ "Example Paper" ++ dq ++ rest).
Proof.
  split; [reflexivity |].
  apply (mla_et_al Sample.paper "Example Paper" "Jane Doe"
           (Some "John Smith") [Some "Wei Li"]);
    [reflexivity | discriminate | reflexivity].
Defined.

(** ** The terminal locator *)

Lemma set_authors_same (m : Metadata) : set_authors m (authors m) = m.
Proof. destruct m; reflexivity. Qed.

Lemma mla_body_ok (m : Metadata) (t : string) :
  title m = Some t -> exists c, mla_body m = Ok c.
Proof.
  intros Ht. destruct (mla_body_shape m t Ht) as [rest Hb].
  specialize (Hb (authors m)). rewrite set_authors_same in Hb.
  eexists. exact Hb.
Qed.

Lemma apa_body_ok (m : Metadata) (t : string) :
  title m = Some t ->
  Forall has_token (get_or (authors m) []) ->
  exists c, apa_body m = Ok c.
Proof.
  intros Ht Hn. destruct (apa_author_text_ok _ Hn) as [a Ha].
  destruct (apa_body_shape m t a Ht Ha) as [rest Hb].
  eexists. exact Hb.
Qed.

(** C2: for a record with a nonempty title and a nonempty doi, each
    formatter's citation is the text built before the locator step followed
    by the DOI-based locator https://doi.org/{doi} (Chicago and MLA close it
    with their final period), and this holds whatever the url field is, so
    the url is never the terminal locator.  The text before the locator is
    always produced by MLA, by Chicago when the authors are strings, and by
    APA when every author has a token. *)
Theorem doi_locator_terminal (m : Metadata) (t d : string) :
  title m = Some t -> t <> "" ->
  doi m = Some d -> d <> "" ->
  (forall u : option string,
     format_apa_citation (set_url m u)
     = (c <- apa_body m ;; Ok (c ++ ". https://doi.org/" ++ d))
     /\ format_chicago_citation (set_url m u)
        = (c <- chicago_body m ;; Ok (c ++ " https://doi.org/" ++ d ++ "."))
     /\ format_mla_citation (set_url m u)
        = (c <- mla_body m ;;
           Ok (c ++ ". Crossref, https://doi.org/" ++ d ++ ".")))
  /\ (exists c, mla_body m = Ok c)
  /\ (Forall is_name (get_or (authors m) []) ->
        exists c, chicago_body m = Ok c)
  /\ (Forall has_token (get_or (authors m) []) ->
        exists c, apa_body m = Ok c).
Proof.
  intros Ht Hne Hd Hdne.
  assert (Td : truthy (Some d) = true) by (apply truthy_nonempty; exact Hdne).
  split; [| split; [| split]].
  - intros u. repeat split.
    + unfold format_apa_citation.
      rewrite (title_guard (set_url m u) t Ht Hne).
      change (apa_body (set_url m u)) with (apa_body m).
      destruct (apa_body m) as [c | e]; [| reflexivity].
      cbn [rbind doi set_url]. rewrite Hd, Td. reflexivity.
    + unfold format_chicago_citation.
      rewrite (title_guard (set_url m u) t Ht Hne).
      change (chicago_body (set_url m u)) with (chicago_body m).
      destruct (chicago_body m) as [c | e]; [| reflexivity].
      cbn [rbind doi set_url]. rewrite Hd, Td. reflexivity.
    + unfold format_mla_citation.
      rewrite (title_guard (set_url m u) t Ht Hne).
      change (mla_body (set_url m u)) with (mla_body m).
      destruct (mla_body m) as [c | e]; [| reflexivity].
      cbn [rbind doi set_url]. rewrite Hd, Td. cbn [rbind item].
      rewrite !append_assoc. reflexivity.
  - apply (mla_body_ok m t Ht).
  - apply (chicago_body_ok m t Ht).
  - apply (apa_body_ok m t Ht).
Qed.

Lemma doi_locator_terminal_witness :
  format_chicago_citation Sample.paper
    = Ok ("Jane Doe, John Smith, and Wei Li. " ++ dq ++ "Example Paper" ++ dq
          ++ ". Journal of Examples 5, no. 2 December 2023. https://doi.org/10.1000/xyz123.")
  /\ forall u : option string,
       format_apa_citation (set_url Sample.paper u)
       = (c <- apa_body Sample.paper ;;
          Ok (c ++ ". https://doi.org/" ++ "10.1000/xyz123"))
       /\ format_chicago_citation (set_url Sample.paper u)
          = (c <- chicago_body Sample.paper ;;
             Ok (c ++ " https://doi.org/" ++ "10.1000/xyz123" ++ "."))
       /\ format_mla_citation (set_url Sample.paper u)
          = (c <- mla_body Sample.paper ;;
             Ok (c ++ ". Crossref, https://doi.org/" ++ "10.1000/xyz123" ++ ".")).
Proof.
  split; [reflexivity |].
  apply (doi_locator_terminal Sample.paper "Example Paper" "10.1000/xyz123");
    [reflexivity | discriminate | reflexivity | discriminate].
Defined.

(** ** Regular expression matching *)

Lemma length_append (a b : string) :
  String.length (a ++ b) = String.length a + String.length b.
Proof. induction a; simpl; congruence. Qed.

Lemma consumed_append (a b : string) : Re.consumed (a ++ b) b = a.
Proof.
  unfold Re.consumed. rewrite length_append.
  replace (String.length a + String.length b - String.length b)
    with (String.length a) by lia.
  induction a as [| c a IH]; simpl.
  - destruct b; reflexivity.
  - rewrite IH. reflexivity.
Qed.

Lemma consumed_all (s : string) : Re.consumed s "" = s.
Proof.
  rewrite <- (append_nil_r s) at 1. apply consumed_append.
Qed.

(** A maximal run of the class, long enough, is what the greedy repetition
    hands to a continuation that accepts it. *)
Lemma rep_greedy {A} (p : ascii -> bool) (run rest : string) (n : nat)
  (k : string -> option A) (a : A) :
  all_chars p run = true ->
  n <= String.length run ->
  starts_with p rest = false ->
  k rest = Some a ->
  Re.rep p n (run ++ rest) k = Some a.
Proof.
  revert n. induction run as [| c run IH]; intros n Hall Hn Hrest Hk.
  - simpl in Hn. assert (n = 0) by lia. subst n. simpl.
    destruct rest as [| c rest]; simpl; [exact Hk |].
    simpl in Hrest. rewrite Hrest. exact Hk.
  - simpl in Hall. apply andb_prop in Hall. destruct Hall as [Hc Hall].
    simpl. rewrite Hc. rewrite (IH (Nat.pred n)); auto.
    simpl in Hn. lia.
Qed.

(** What a successful repetition has read. *)
Lemma rep_inv {A} (p : ascii -> bool) (s : string) (n : nat)
  (k : string -> option A) (a : A) :
  Re.rep p n s k = Some a ->
  exists run rest,
    s = run ++ rest /\ all_chars p run = true
    /\ n <= String.length run /\ k rest = Some a.
Proof.
  revert n. induction s as [| c s IH]; intros n H.
  - simpl in H. destruct n; [| discriminate].
    exists "", "". repeat split; auto.
  - simpl in H. destruct (p c) eqn:Hc.
    + destruct (Re.rep p (Nat.pred n) s k) as [a' |] eqn:Hr.
      * injection H as <-. destruct (IH _ Hr) as [run [rest [-> [Hall [Hn Hk]]]]].
        exists (String c run), rest. simpl. rewrite Hc, Hall.
        repeat split; auto. lia.
      * destruct n; [| discriminate].
        exists "", (String c s). repeat split; auto.
    + destruct n; [| discriminate].
      exists "", (String c s). repeat split; auto.
Qed.

(** The strings the DOI pattern matches in full. *)
Lemma doi_fullmatch_inv (d : string) :
  Re.fullmatch doi_pattern d = true ->
  exists digits suffix,
    d = "10." ++ digits ++ "/" ++ suffix
    /\ all_chars Py.is_digit digits = true /\ 4 <= String.length digits
    /\ all_chars doi_char suffix = true /\ 1 <= String.length suffix.
Proof.
  unfold Re.fullmatch, doi_pattern. intros H.
  destruct d as [| c1 d]; cbn -[Ascii.eqb] in H; [discriminate H |].
  destruct (Ascii.eqb_spec "1" c1) as [<- |]; [| discriminate H].
  destruct d as [| c2 d]; cbn -[Ascii.eqb] in H; [discriminate H |].
  destruct (Ascii.eqb_spec "0" c2) as [<- |]; [| discriminate H].
  destruct d as [| c3 d]; cbn -[Ascii.eqb] in H; [discriminate H |].
  destruct (Ascii.eqb_spec "." c3) as [<- |]; [| discriminate H].
  match type of H with
  | match ?r with _ => _ end = true => destruct r as [u |] eqn:Hr; [| discriminate H]
  end.
  apply rep_inv in Hr.
  destruct Hr as [digits [rest [-> [Hdig [Hlen Hk]]]]].
  destruct rest as [| c rest]; [discriminate Hk |].
  destruct (Ascii.eqb_spec "/" c) as [<- |]; [| discriminate Hk].
  apply rep_inv in Hk.
  destruct Hk as [suffix [tail [-> [Hsuf [Hslen Hend]]]]].
  destruct tail; [| discriminate Hend].
  exists digits, suffix. rewrite append_nil_r. repeat split; auto.
Qed.

(** At the head of such a string the pattern matches the whole of it. *)
Lemma doi_match_here (digits suffix tail : string) :
  all_chars Py.is_digit digits = true -> 4 <= String.length digits ->
  all_chars doi_char suffix = true -> 1 <= String.length suffix ->
  starts_with doi_char tail = false ->
  let d := "10." ++ digits ++ "/" ++ suffix in
  Re.match_here doi_pattern (d ++ tail)
  = Some {| Re.group0 := d; Re.group1 := None |}.
Proof.
  intros Hdig Hlen Hsuf Hslen Htail d.
  unfold Re.match_here, doi_pattern. subst d.
  rewrite !append_assoc.
  cbn -[Ascii.eqb Re.consumed Re.rep]. rewrite !Ascii.eqb_refl.
  apply rep_greedy; auto.
  cbn -[Ascii.eqb Re.consumed Re.rep]. rewrite !Ascii.eqb_refl.
  apply rep_greedy; auto.
  f_equal. f_equal.
  change (String "1" (String "0" (String "." (digits ++ String "/" (suffix ++ tail)))))
    with ("10." ++ digits ++ "/" ++ suffix ++ tail).
  rewrite <- !append_assoc. rewrite consumed_append.
  rewrite !append_assoc. reflexivity.
Qed.

Lemma search_found (r : Re.regex) (s : string) (m : Re.Match) :
  Re.match_here r s = Some m -> Re.search r s = Some m.
Proof. intros H. destruct s; simpl; rewrite H; reflexivity. Qed.

Lemma doi_search_skip (c : ascii) (s : string) :
  Ascii.eqb "1" c = false ->
  Re.search doi_pattern (String c s) = Re.search doi_pattern s.
Proof.
  intros H. cbn [Re.search]. unfold Re.match_here, doi_pattern.
  cbn -[Ascii.eqb Re.search]. rewrite H. reflexivity.
Qed.

Lemma doi_search_full (d : string) :
  Re.fullmatch doi_pattern d = true ->
  Re.search doi_pattern d = Some {| Re.group0 := d; Re.group1 := None |}.
Proof.
  intros H.
  destruct (doi_fullmatch_inv d H)
    as [digits [suffix [-> [Hdig [Hlen [Hsuf Hslen]]]]]].
  apply search_found.
  rewrite <- (append_nil_r ("10." ++ digits ++ "/" ++ suffix)) at 1.
  apply doi_match_here; auto.
Qed.

Lemma doi_search_link (d : string) :
  Re.fullmatch doi_pattern d = true ->
  Re.search doi_pattern ("https://doi.org/" ++ d)
  = Some {| Re.group0 := d; Re.group1 := None |}.
Proof.
  intros H. cbn [append].
  rewrite !doi_search_skip by reflexivity.
  apply doi_search_full. exact H.
Qed.

(** ** The classifier *)

(** C8: for a string [d] that the DOI pattern matches in full, the
    classifier extracts the candidate [d] both from [d] itself and from
    "https://doi.org/" followed by [d], and in both cases its first step is
    the DOI extractor called with [d]. *)
Theorem doi_candidate_same (W : World) (d : string) :
  Re.fullmatch doi_pattern d = true ->
  let link := "https://doi.org/" ++ d in
  doi_candidate (Re.search doi_pattern d) d = Ok d
  /\ doi_candidate (Re.search doi_pattern link) link = Ok d
  /\ identify_url_type W d
     = (metadata <~ extract_doi_metadata W d ;;
        if meta_truthy metadata then mret metadata else try_arxiv W d)
  /\ identify_url_type W link
     = (metadata <~ extract_doi_metadata W d ;;
        if meta_truthy metadata then mret metadata else try_arxiv W link).
Proof.
  intros H link. subst link.
  pose proof (doi_search_full d H) as Hb.
  pose proof (doi_search_link d H) as Hl.
  repeat split.
  - rewrite Hb. reflexivity.
  - rewrite Hl. reflexivity.
  - unfold identify_url_type. rewrite Hb. reflexivity.
  - unfold identify_url_type. rewrite Hl. reflexivity.
Qed.

Lemma doi_candidate_same_witness :
  Re.fullmatch doi_pattern "10.1000/xyz123" = true
  /\ doi_candidate (Re.search doi_pattern "https://doi.org/10.1000/xyz123")
       "https://doi.org/10.1000/xyz123" = Ok "10.1000/xyz123"
  /\ identify_url_type (Sample.world Sample.work)
       ("https://doi.org/" ++ "10.1000/xyz123")
     = (metadata <~ extract_doi_metadata (Sample.world Sample.work)
                      "10.1000/xyz123" ;;
        if meta_truthy metadata then mret metadata
        else try_arxiv (Sample.world Sample.work)
               ("https://doi.org/" ++ "10.1000/xyz123")).
Proof.
  split; [reflexivity |]. split; [reflexivity |].
  apply (doi_candidate_same (Sample.world Sample.work) "10.1000/xyz123").
  reflexivity.
Defined.

(** ** The extractors *)

Lemma extract_doi_returns (W : World) (doi : string) (st : State) :
  exists v,
    extract_doi_metadata W doi st
    = (Ok v, after_request st (doi_request doi)).
Proof.
  unfold extract_doi_metadata, try_except, mbind, http_get, lift.
  destruct (requests_get W _ _) as [response | e]; [| eexists; reflexivity].
  destruct (json W response) as [document | e]; [| eexists; reflexivity].
  cbn [rbind].
  destruct (item (message document)) as [data | e]; [| eexists; reflexivity].
  cbn [rbind].
  destruct (doi_record doi data) as [metadata | e]; eexists; reflexivity.
Qed.

Lemma extract_arxiv_returns (W : World) (arxiv_id : string) (st : State) :
  exists v,
    extract_arxiv_metadata W arxiv_id st
    = (Ok v, after_request st (arxiv_request arxiv_id)).
Proof.
  unfold extract_arxiv_metadata, try_except, mbind, http_get, lift.
  destruct (requests_get W _ _) as [response | e]; [| eexists; reflexivity].
  destruct (ET_fromstring W (body response)) as [root | e];
    [| eexists; reflexivity].
  cbn [rbind].
  destruct (find root (atom "entry")) as [entry |]; [| eexists; reflexivity].
  destruct (arxiv_record W arxiv_id entry) as [metadata | e];
    eexists; reflexivity.
Qed.

Lemma extract_general_returns (W : World) (url : string) (st : State) :
  exists v st',
    extract_general_metadata W url st = (Ok v, st')
    /\ sent st' = (sent st ++ [general_request url])%list.
Proof.
  unfold extract_general_metadata, try_except, mbind, http_get, lift, now, mret.
  fold (general_request url).
  destruct (requests_get W _ _) as [response | e];
    [| eexists; eexists; split; reflexivity].
  destruct (BeautifulSoup W (body response)) as [soup | e];
    eexists; eexists; split; reflexivity.
Qed.

Lemma doi_fails_on (W : World) (doi : string) (st : State) :
  (forall e,
     requests_get W (List.length (sent st)) (doi_request doi) = Raise e ->
     extract_doi_metadata W doi st
     = (Ok None, after_request st (doi_request doi)))
  /\ (forall response e,
        requests_get W (List.length (sent st)) (doi_request doi) = Ok response ->
        json W response = Raise e ->
        extract_doi_metadata W doi st
        = (Ok None, after_request st (doi_request doi)))
  /\ (forall response document,
        requests_get W (List.length (sent st)) (doi_request doi) = Ok response ->
        json W response = Ok document ->
        message document = None ->
        extract_doi_metadata W doi st
        = (Ok None, after_request st (doi_request doi))).
Proof.
  unfold extract_doi_metadata, try_except, mbind, http_get, lift.
  change {| req_url := "https://api.crossref.org/works/" ++ doi;
            req_headers := [("Accept", "application/json")] |}
    with (doi_request doi).
  repeat split.
  - intros e H. rewrite H. reflexivity.
  - intros response e H J. rewrite H, J. reflexivity.
  - intros response document H J K. rewrite H, J. cbn [rbind]. rewrite K.
    reflexivity.
Qed.

Lemma arxiv_fails_on (W : World) (arxiv_id : string) (st : State) :
  (forall e,
     requests_get W (List.length (sent st)) (arxiv_request arxiv_id) = Raise e ->
     extract_arxiv_metadata W arxiv_id st
     = (Ok None, after_request st (arxiv_request arxiv_id)))
  /\ (forall response e,
        requests_get W (List.length (sent st)) (arxiv_request arxiv_id)
        = Ok response ->
        ET_fromstring W (body response) = Raise e ->
        extract_arxiv_metadata W arxiv_id st
        = (Ok None, after_request st (arxiv_request arxiv_id)))
  /\ (forall response root,
        requests_get W (List.length (sent st)) (arxiv_request arxiv_id)
        = Ok response ->
        ET_fromstring W (body response) = Ok root ->
        find root (atom "entry") = None ->
        extract_arxiv_metadata W arxiv_id st
        = (Ok None, after_request st (arxiv_request arxiv_id))).
Proof.
  unfold extract_arxiv_metadata, try_except, mbind, http_get, lift.
  change {| req_url := "http://export.arxiv.org/api/query?id_list=" ++ arxiv_id;
            req_headers := [] |}
    with (arxiv_request arxiv_id).
  repeat split.
  - intros e H. rewrite H. reflexivity.
  - intros response e H J. rewrite H, J. reflexivity.
  - intros response root H J K. rewrite H, J. cbn [rbind]. rewrite K.
    reflexivity.
Qed.

Lemma general_fails_on (W : World) (url : string) (st : State) :
  (forall e,
     requests_get W (List.length (sent st)) (general_request url) = Raise e ->
     extract_general_metadata W url st
     = (Ok None, after_request st (general_request url)))
  /\ (forall response e,
        requests_get W (List.length (sent st)) (general_request url)
        = Ok response ->
        BeautifulSoup W (body response) = Raise e ->
        extract_general_metadata W url st
        = (Ok None, after_request st (general_request url))).
Proof.
  unfold extract_general_metadata, try_except, mbind, http_get, lift.
  fold (general_request url).
  split.
  - intros e H. rewrite H. reflexivity.
  - intros response e H J. rewrite H, J. reflexivity.
Qed.

Lemma extract_doi_inv (W : World) (d : string) (st st' : State) (m : Metadata) :
  extract_doi_metadata W d st = (Ok (Some m), st') ->
  st' = after_request st (doi_request d)
  /\ exists response data,
       requests_get W (List.length (sent st)) (doi_request d) = Ok response
       /\ json W response = Ok {| message := Some data |}
       /\ doi_record d data = Ok m.
Proof.
  unfold extract_doi_metadata, try_except, mbind, http_get, lift.
  change {| req_url := "https://api.crossref.org/works/" ++ d;
            req_headers := [("Accept", "application/json")] |}
    with (doi_request d).
  fold (after_request st (doi_request d)).
  destruct (requests_get W _ _) as [response | e] eqn:G; [| discriminate].
  destruct (json W response) as [[[data |]] | e] eqn:J; cbn [rbind item message];
    try discriminate.
  destruct (doi_record d data) as [m' | e] eqn:R; cbn [rbind]; [| discriminate].
  intros H. injection H as <- <-. split; [reflexivity |].
  exists response, data. auto.
Qed.

Lemma extract_arxiv_inv (W : World) (arxiv_id : string) (st st' : State)
  (m : Metadata) :
  extract_arxiv_metadata W arxiv_id st = (Ok (Some m), st') ->
  st' = after_request st (arxiv_request arxiv_id)
  /\ exists response root entry,
       requests_get W (List.length (sent st)) (arxiv_request arxiv_id)
       = Ok response
       /\ ET_fromstring W (body response) = Ok root
       /\ find root (atom "entry") = Some entry
       /\ arxiv_record W arxiv_id entry = Ok m.
Proof.
  unfold extract_arxiv_metadata, try_except, mbind, http_get, lift.
  change {| req_url := "http://export.arxiv.org/api/query?id_list=" ++ arxiv_id;
            req_headers := [] |}
    with (arxiv_request arxiv_id).
  fold (after_request st (arxiv_request arxiv_id)).
  destruct (requests_get W _ _) as [response | e] eqn:G; [| discriminate].
  destruct (ET_fromstring W (body response)) as [root | e] eqn:X;
    [| discriminate].
  cbn [rbind].
  destruct (find root (atom "entry")) as [entry |] eqn:F; [| discriminate].
  destruct (arxiv_record W arxiv_id entry) as [m' | e] eqn:R; cbn [rbind];
    [| discriminate].
  intros H. injection H as <- <-. split; [reflexivity |].
  exists response, root, entry. auto.
Qed.

Lemma extract_general_inv (W : World) (url : string) (st st' : State)
  (m : Metadata) :
  extract_general_metadata W url st = (Ok (Some m), st') ->
  exists response soup,
    requests_get W (List.length (sent st)) (general_request url) = Ok response
    /\ BeautifulSoup W (body response) = Ok soup
    /\ m = scrape W soup
             (page_defaults url (datetime_now W (clock_reads st))
                (datetime_now W (S (clock_reads st)))).
Proof.
  unfold extract_general_metadata, try_except, mbind, http_get, lift, now, mret.
  fold (general_request url).
  destruct (requests_get W _ _) as [response | e] eqn:G; [| discriminate].
  destruct (BeautifulSoup W (body response)) as [soup | e] eqn:B;
    [| discriminate].
  cbn [sent clock_reads page].
  intros H. injection H as <- _. exists response, soup. auto.
Qed.

Lemma doi_record_fails_on (W : World) (doi : string) (st : State)
  (response : Response) (document : Document) (data : Work) (e : exn) :
  requests_get W (List.length (sent st)) (doi_request doi) = Ok response ->
  json W response = Ok document ->
  message document = Some data ->
  doi_record doi data = Raise e ->
  extract_doi_metadata W doi st
  = (Ok None, after_request st (doi_request doi)).
Proof.
  intros H J K R.
  unfold extract_doi_metadata, try_except, mbind, http_get, lift.
  change {| req_url := "https://api.crossref.org/works/" ++ doi;
            req_headers := [("Accept", "application/json")] |}
    with (doi_request doi).
  rewrite H, J. cbn [rbind]. rewrite K. cbn [item rbind]. rewrite R.
  reflexivity.
Qed.

Lemma doi_record_empty_list (doi : string) (data : Work) :
  w_title data = Some [] \/ w_container_title data = Some [] ->
  exists e, doi_record doi data = Raise e.
Proof.
  intros H. unfold doi_record.
  destruct H as [H | H].
  - rewrite H. eexists. reflexivity.
  - rewrite H.
    destruct (Py.item0 (get_or (w_title data) [""])) as [t | e];
      cbn [rbind]; [| eexists; reflexivity].
    destruct (Py.item0 _) as [parts | e]; cbn [rbind]; [| eexists; reflexivity].
    destruct (Py.item0 parts) as [part | e]; cbn [rbind];
      eexists; reflexivity.
Qed.

Lemma arxiv_record_fails_on (W : World) (arxiv_id : string) (st : State)
  (response : Response) (root entry : Element) (e : exn) :
  requests_get W (List.length (sent st)) (arxiv_request arxiv_id)
  = Ok response ->
  ET_fromstring W (body response) = Ok root ->
  find root (atom "entry") = Some entry ->
  arxiv_record W arxiv_id entry = Raise e ->
  extract_arxiv_metadata W arxiv_id st
  = (Ok None, after_request st (arxiv_request arxiv_id)).
Proof.
  intros H J K R.
  unfold extract_arxiv_metadata, try_except, mbind, http_get, lift.
  change {| req_url := "http://export.arxiv.org/api/query?id_list=" ++ arxiv_id;
            req_headers := [] |}
    with (arxiv_request arxiv_id).
  rewrite H, J. cbn [rbind]. rewrite K, R. reflexivity.
Qed.

Lemma arxiv_record_no_title (W : World) (arxiv_id : string) (entry : Element) :
  find entry (atom "title") = None ->
  exists e, arxiv_record W arxiv_id entry = Raise e.
Proof.
  intros H. unfold arxiv_record. rewrite H. eexists. reflexivity.
Qed.

(** C3: no extractor raises: each returns a value (a record or [None])
    after its single request, and returns [None] for every failure inside
    it: when the request fails, when the answer cannot be parsed (JSON,
    XML or HTML), when the answer's top-level member ([message], [entry])
    is missing, and when building the record from it raises, as it does
    for an empty title or container-title list or an entry without title.
    These are all the failures there are: an extractor returns a record
    only when its request, its parser and the construction of the record
    all succeeded.  And when the DOI extractor returns [None] for a URL
    with a DOI match and no arXiv match, the classifier continues as the
    generic extractor called with the same URL, whose request follows the
    registry's. *)
Theorem extractors_absorb_failures (W : World) :
  (forall doi st,
     exists v,
       extract_doi_metadata W doi st
       = (Ok v, after_request st (doi_request doi)))
  /\ (forall arxiv_id st,
        exists v,
          extract_arxiv_metadata W arxiv_id st
          = (Ok v, after_request st (arxiv_request arxiv_id)))
  /\ (forall url st,
        exists v st',
          extract_general_metadata W url st = (Ok v, st')
          /\ sent st' = (sent st ++ [general_request url])%list)
  /\ (forall doi st e,
        requests_get W (List.length (sent st)) (doi_request doi) = Raise e ->
        extract_doi_metadata W doi st
        = (Ok None, after_request st (doi_request doi)))
  /\ (forall doi st response e,
        requests_get W (List.length (sent st)) (doi_request doi) = Ok response ->
        json W response = Raise e ->
        extract_doi_metadata W doi st
        = (Ok None, after_request st (doi_request doi)))
  /\ (forall doi st response document,
        requests_get W (List.length (sent st)) (doi_request doi) = Ok response ->
        json W response = Ok document ->
        message document = None ->
        extract_doi_metadata W doi st
        = (Ok None, after_request st (doi_request doi)))
  /\ (forall doi st response document data,
        requests_get W (List.length (sent st)) (doi_request doi) = Ok response ->
        json W response = Ok document ->
        message document = Some data ->
        ((exists e, doi_record doi data = Raise e)
         \/ w_title data = Some []
         \/ w_container_title data = Some []) ->
        extract_doi_metadata W doi st
        = (Ok None, after_request st (doi_request doi)))
  /\ (forall arxiv_id st e,
        requests_get W (List.length (sent st)) (arxiv_request arxiv_id)
        = Raise e ->
        extract_arxiv_metadata W arxiv_id st
        = (Ok None, after_request st (arxiv_request arxiv_id)))
  /\ (forall arxiv_id st response e,
        requests_get W (List.length (sent st)) (arxiv_request arxiv_id)
        = Ok response ->
        ET_fromstring W (body response) = Raise e ->
        extract_arxiv_metadata W arxiv_id st
        = (Ok None, after_request st (arxiv_request arxiv_id)))
  /\ (forall arxiv_id st response root,
        requests_get W (List.length (sent st)) (arxiv_request arxiv_id)
        = Ok response ->
        ET_fromstring W (body response) = Ok root ->
        find root (atom "entry") = None ->
        extract_arxiv_metadata W arxiv_id st
        = (Ok None, after_request st (arxiv_request arxiv_id)))
  /\ (forall arxiv_id st response root entry,
        requests_get W (List.length (sent st)) (arxiv_request arxiv_id)
        = Ok response ->
        ET_fromstring W (body response) = Ok root ->
        find root (atom "entry") = Some entry ->
        ((exists e, arxiv_record W arxiv_id entry = Raise e)
         \/ find entry (atom "title") = None) ->
        extract_arxiv_metadata W arxiv_id st
        = (Ok None, after_request st (arxiv_request arxiv_id)))
  /\ (forall url st e,
        requests_get W (List.length (sent st)) (general_request url) = Raise e ->
        extract_general_metadata W url st
        = (Ok None, after_request st (general_request url)))
  /\ (forall url st response e,
        requests_get W (List.length (sent st)) (general_request url)
        = Ok response ->
        BeautifulSoup W (body response) = Raise e ->
        extract_general_metadata W url st
        = (Ok None, after_request st (general_request url)))
  /\ (forall doi st st' m,
        extract_doi_metadata W doi st = (Ok (Some m), st') ->
        exists response data,
          requests_get W (List.length (sent st)) (doi_request doi) = Ok response
          /\ json W response = Ok {| message := Some data |}
          /\ doi_record doi data = Ok m)
  /\ (forall arxiv_id st st' m,
        extract_arxiv_metadata W arxiv_id st = (Ok (Some m), st') ->
        exists response root entry,
          requests_get W (List.length (sent st)) (arxiv_request arxiv_id)
          = Ok response
          /\ ET_fromstring W (body response) = Ok root
          /\ find root (atom "entry") = Some entry
          /\ arxiv_record W arxiv_id entry = Ok m)
  /\ (forall url st st' m,
        extract_general_metadata W url st = (Ok (Some m), st') ->
        exists response soup,
          requests_get W (List.length (sent st)) (general_request url)
          = Ok response
          /\ BeautifulSoup W (body response) = Ok soup
          /\ m = scrape W soup
                   (page_defaults url (datetime_now W (clock_reads st))
                      (datetime_now W (S (clock_reads st)))))
  /\ (forall url st dm,
        Re.search doi_pattern url = Some dm ->
        Re.search arxiv_pattern url = None ->
        fst (extract_doi_metadata W (Re.group0 dm) st) = Ok None ->
        identify_url_type W url st
        = extract_general_metadata W url
            (after_request st (doi_request (Re.group0 dm)))
        /\ exists v st',
             identify_url_type W url st = (Ok v, st')
             /\ sent st'
                = (sent st
                   ++ [doi_request (Re.group0 dm); general_request url])%list).
Proof.
  split; [exact (extract_doi_returns W) |].
  split; [exact (extract_arxiv_returns W) |].
  split; [exact (extract_general_returns W) |].
  split; [intros doi st; apply (doi_fails_on W doi st) |].
  split; [intros doi st; apply (doi_fails_on W doi st) |].
  split; [intros doi st; apply (doi_fails_on W doi st) |].
  split.
  { intros doi st response document data H J K R.
    assert (R' : exists e, doi_record doi data = Raise e).
    { destruct R as [R | R]; [exact R |].
      apply doi_record_empty_list. exact R. }
    destruct R' as [e R'].
    exact (doi_record_fails_on W doi st response document data e H J K R'). }
  split; [intros id st; apply (arxiv_fails_on W id st) |].
  split; [intros id st; apply (arxiv_fails_on W id st) |].
  split; [intros id st; apply (arxiv_fails_on W id st) |].
  split.
  { intros id st response root entry H J K R.
    assert (R' : exists e, arxiv_record W id entry = Raise e).
    { destruct R as [R | R]; [exact R |].
      apply arxiv_record_no_title. exact R. }
    destruct R' as [e R'].
    exact (arxiv_record_fails_on W id st response root entry e H J K R'). }
  split; [intros url st; apply (general_fails_on W url st) |].
  split; [intros url st; apply (general_fails_on W url st) |].
  split; [intros doi st st' m H; apply (extract_doi_inv W doi st st' m H) |].
  split; [intros id st st' m H; apply (extract_arxiv_inv W id st st' m H) |].
  split; [exact (extract_general_inv W) |].
  intros url st dm Hdoi Harxiv Hfail.
  assert (E : identify_url_type W url st
              = extract_general_metadata W url
                  (after_request st (doi_request (Re.group0 dm)))).
  { destruct (extract_doi_returns W (Re.group0 dm) st) as [v Hv].
    rewrite Hv in Hfail. cbn [fst] in Hfail. injection Hfail as ->.
    unfold identify_url_type. rewrite Hdoi.
    cbn [matched orb doi_candidate]. unfold mbind at 1. unfold lift at 1.
    unfold mbind. rewrite Hv. cbn [meta_truthy].
    unfold try_arxiv. rewrite Harxiv. reflexivity. }
  split; [exact E |].
  destruct (extract_general_returns W url
              (after_request st (doi_request (Re.group0 dm))))
    as [v [st' [Hg Hs]]].
  exists v, st'. split; [rewrite E; exact Hg |].
  rewrite Hs. cbn [sent after_request]. rewrite <- app_assoc. reflexivity.
Qed.

Lemma extractors_absorb_failures_witness :
  let url := "https://doi.org/10.1000/xyz123" in
  extract_doi_metadata Sample.registry_down "10.1000/xyz123" start
    = (Ok None, after_request start (doi_request "10.1000/xyz123"))
  /\ identify_url_type Sample.registry_down url start
     = extract_general_metadata Sample.registry_down url
         (after_request start (doi_request "10.1000/xyz123"))
  /\ extract_arxiv_metadata Sample.bare_world "2305.06161" start
     = (Ok None, after_request start (arxiv_request "2305.06161")).
Proof.
  destruct (extractors_absorb_failures Sample.registry_down)
    as [_ [_ [_ [Hdown [_ [_ [_ [_ [_ [_ [_ [_ [_ [_ [_ [_ Hfall]]]]]]]]]]]]]]]].
  destruct (extractors_absorb_failures Sample.bare_world)
    as [_ [_ [_ [_ [_ [_ [_ [_ [_ [_ [Hentry _]]]]]]]]]]].
  split; [| split].
  - apply (Hdown "10.1000/xyz123" start RequestException). reflexivity.
  - apply (Hfall "https://doi.org/10.1000/xyz123" start
             {| Re.group0 := "10.1000/xyz123"; Re.group1 := None |});
      reflexivity.
  - apply (Hentry "2305.06161" start {| body := "" |} Sample.bare_feed
             (Elem (atom "entry") None
                [Elem (atom "published") (Some "2023-05-10T00:00:00Z") []]));
      [reflexivity | reflexivity | reflexivity | right; reflexivity].
Defined.

(** C9: when the registry's answer has no print-publication date, the DOI
    extractor still returns a record, and its year is the empty string;
    with that key absent the only answers that make it return [None] are
    those whose title list or container-title list is empty. *)
Theorem missing_print_date_empty_year (W : World) (doi : string) (st : State)
  (response : Response) (document : Document) (data : Work) :
  requests_get W (List.length (sent st)) (doi_request doi) = Ok response ->
  json W response = Ok document ->
  message document = Some data ->
  w_published_print data = None ->
  (w_title data <> Some [] -> w_container_title data <> Some [] ->
   exists m,
     extract_doi_metadata W doi st
     = (Ok (Some m), after_request st (doi_request doi))
     /\ year m = Some "")
  /\ (w_title data = Some [] \/ w_container_title data = Some [] ->
      extract_doi_metadata W doi st
      = (Ok None, after_request st (doi_request doi))).
Proof.
  intros Hget Hjson Hmsg Hdate.
  assert (E : extract_doi_metadata W doi st
              = (match doi_record doi data with
                 | Ok m => Ok (Some m)
                 | Raise _ => Ok None
                 end, after_request st (doi_request doi))).
  { unfold extract_doi_metadata, try_except, mbind, http_get, lift.
    change {| req_url := "https://api.crossref.org/works/" ++ doi;
              req_headers := [("Accept", "application/json")] |}
      with (doi_request doi).
    rewrite Hget, Hjson. cbn [rbind]. rewrite Hmsg.
    cbn [item rbind]. destruct (doi_record doi data); reflexivity. }
  rewrite E. unfold doi_record. rewrite Hdate. cbn [get_or date_parts].
  split.
  - intros Ht Hc.
    destruct (w_title data) as [[| t ts] |]; [congruence | |];
      destruct (w_container_title data) as [[| j js] |]; try congruence;
      cbn; eexists; split; reflexivity.
  - intros [H | H]; rewrite H; cbn; [reflexivity |].
    destruct (w_title data) as [[| t ts] |]; reflexivity.
Qed.

Lemma missing_print_date_empty_year_witness :
  exists m,
    extract_doi_metadata (Sample.world Sample.undated_work) "10.1000/xyz123" start
    = (Ok (Some m), after_request start (doi_request "10.1000/xyz123"))
    /\ year m = Some "".
Proof.
  apply (missing_print_date_empty_year (Sample.world Sample.undated_work)
           "10.1000/xyz123" start {| body := "" |}
           {| message := Some Sample.undated_work |} Sample.undated_work);
    try reflexivity; discriminate.
Defined.

(** ** End-to-end scenarios *)

(** C4: for the URL https://doi.org/10.1000/xyz123, when the registry
    answers with title ["Example Paper"], author Jane Doe, print date-parts
    [[2023]], container-title ["Journal of Examples"], volume "5", issue "2"
    and publisher "Example Press", the APA run sends one request, to the
    registry, and writes the style header followed by exactly
    Doe, J. (2023, December). Example Paper. Journal of Examples, 5(2). https://doi.org/10.1000/xyz123 *)
Theorem scenario_doi_apa (W : World) (response : Response) :
  requests_get W 0 (doi_request "10.1000/xyz123") = Ok response ->
  json W response = Ok {| message := Some Sample.work |} ->
  main W "https://doi.org/10.1000/xyz123" APA start
  = (Ok tt,
     {| sent := [doi_request "10.1000/xyz123"];
        clock_reads := 0;
        page := ["American Psychological Association Style";
                 "Doe, J. (2023, December). Example Paper. Journal of Examples, 5(2). https://doi.org/10.1000/xyz123"] |}).
Proof.
  intros Hget Hjson.
  assert (S : Re.search doi_pattern "https://doi.org/10.1000/xyz123"
              = Some {| Re.group0 := "10.1000/xyz123"; Re.group1 := None |})
    by reflexivity.
  assert (D : extract_doi_metadata W "10.1000/xyz123" start
              = (match doi_record "10.1000/xyz123" Sample.work with
                 | Ok m => Ok (Some m)
                 | Raise _ => Ok None
                 end, after_request start (doi_request "10.1000/xyz123"))).
  { unfold extract_doi_metadata, try_except, mbind, http_get, lift.
    change {| req_url := "https://api.crossref.org/works/" ++ "10.1000/xyz123";
              req_headers := [("Accept", "application/json")] |}
      with (doi_request "10.1000/xyz123").
    change (List.length (sent start)) with 0.
    rewrite Hget, Hjson. reflexivity. }
  unfold main, identify_url_type. rewrite S.
  cbn [Py.is_empty negb matched orb doi_candidate Re.group0].
  unfold mbind, lift. rewrite D. reflexivity.
Qed.

Lemma scenario_doi_apa_witness :
  page (snd (main (Sample.world Sample.work)
               "https://doi.org/10.1000/xyz123" APA start))
  = ["American Psychological Association Style";
     "Doe, J. (2023, December). Example Paper. Journal of Examples, 5(2). https://doi.org/10.1000/xyz123"].
Proof.
  rewrite (scenario_doi_apa (Sample.world Sample.work) {| body := "" |});
    reflexivity.
Defined.

(** C5: for the URL https://arxiv.org/abs/2301.12345, when the feed's entry
    has title "Deep Learning Survey", the single author "Alice Smith" and
    the publication date "2023-05-10T00:00:00Z", the MLA run sends one
    request, to the arXiv API, and writes the style header followed by
    exactly
    Alice Smith. "Deep Learning Survey". arXiv, Cornell University, May. 2023. https://arxiv.org/abs/2301.12345. *)
Theorem scenario_arxiv_mla (W : World) (response : Response) (date : DateTime) :
  requests_get W 0 (arxiv_request "2301.12345") = Ok response ->
  ET_fromstring W (body response) = Ok Sample.feed ->
  strptime_ymd W "2023-05-10" = Ok date ->
  dt_month date = 5 ->
  main W "https://arxiv.org/abs/2301.12345" MLA start
  = (Ok tt,
     {| sent := [arxiv_request "2301.12345"];
        clock_reads := 0;
        page := ["Modern Language Association Style";
                 "Alice Smith. " ++ dq ++ "Deep Learning Survey" ++ dq
                 ++ ". arXiv, Cornell University, May. 2023. https://arxiv.org/abs/2301.12345."] |}).
Proof.
  intros Hget Hxml Hdate Hmonth.
  assert (S : Re.search doi_pattern "https://arxiv.org/abs/2301.12345" = None)
    by reflexivity.
  assert (C : Py.contains "doi.org" "https://arxiv.org/abs/2301.12345" = false)
    by reflexivity.
  assert (A : Re.search arxiv_pattern "https://arxiv.org/abs/2301.12345"
              = Some {| Re.group0 := "arxiv.org/abs/2301.12345";
                        Re.group1 := Some "2301.12345" |})
    by reflexivity.
  assert (N : month_name date = "May").
  { unfold month_name. rewrite Hmonth. reflexivity. }
  assert (X : extract_arxiv_metadata W "2301.12345" start
              = (Ok (Some {| title := Some "Deep Learning Survey";
                             authors := Some [Some "Alice Smith"];
                             year := Some "2023";
                             month := Some "May";
                             journal := Some "arXiv";
                             volume := None;
                             issue := None;
                             doi := None;
                             url := Some "https://arxiv.org/abs/2301.12345";
                             publisher := Some "Cornell University" |}),
                 after_request start (arxiv_request "2301.12345"))).
  { unfold extract_arxiv_metadata, try_except, mbind, http_get, lift.
    change {| req_url := "http://export.arxiv.org/api/query?id_list="
                         ++ "2301.12345";
              req_headers := [] |}
      with (arxiv_request "2301.12345").
    change (List.length (sent start)) with 0.
    rewrite Hget, Hxml. cbn [rbind].
    change (find Sample.feed (atom "entry"))
      with (Some (Elem (atom "entry") None
                    [Elem (atom "id") (Some "http://arxiv.org/abs/2301.12345v1") [];
                     Elem (atom "published") (Some "2023-05-10T00:00:00Z") [];
                     Elem (atom "title") (Some "Deep Learning Survey") [];
                     Elem (atom "author") None
                       [Elem (atom "name") (Some "Alice Smith") []]])).
    unfold arxiv_record. cbn -[month_name after_request arxiv_request].
    rewrite Hdate. cbn [rbind]. rewrite N. reflexivity. }
  unfold main, identify_url_type. rewrite S, C.
  cbn [Py.is_empty negb matched orb]. unfold try_arxiv. rewrite A.
  cbn [Re.group1 str_of]. unfold mbind. rewrite X. reflexivity.
Qed.

Lemma scenario_arxiv_mla_witness :
  page (snd (main (Sample.world Sample.work)
               "https://arxiv.org/abs/2301.12345" MLA start))
  = ["Modern Language Association Style";
     "Alice Smith. " ++ dq ++ "Deep Learning Survey" ++ dq
     ++ ". arXiv, Cornell University, May. 2023. https://arxiv.org/abs/2301.12345."].
Proof.
  rewrite (scenario_arxiv_mla (Sample.world Sample.work) {| body := "" |}
             {| dt_year := 2023; dt_month := 5 |});
    reflexivity.
Defined.

(** * Further properties of the code *)

Lemma truthy_title (m : Metadata) :
  negb (dict_truthy m) || negb (truthy (title m)) = false ->
  exists t, title m = Some t /\ t <> "".
Proof.
  intros H. apply orb_false_elim in H. destruct H as [_ H].
  apply negb_false_iff in H. destruct (title m) as [t |]; [| discriminate H].
  exists t. split; [reflexivity |]. intros ->. discriminate H.
Qed.

(** X1: the MLA formatter never raises, whatever the record holds (author
    entries that are [None] included), and its result always ends with a
    period. *)
Theorem mla_always_returns (m : Metadata) :
  exists c, format_mla_citation m = Ok (c ++ ".").
Proof.
  unfold format_mla_citation.
  destruct (negb (dict_truthy m) || negb (truthy (title m))) eqn:G.
  - exists "Unable to generate citation". reflexivity.
  - destruct (truthy_title m G) as [t [Ht _]].
    destruct (mla_body_ok m t Ht) as [c ->]. cbn [rbind].
    decide_fields; eexists; reflexivity.
Qed.

Lemma join_of_names (sep : string) (l : list string) :
  join_of sep (map Some l) = Ok (Py.join sep l).
Proof.
  unfold join_of.
  assert (E : comprehension
                (fun v : option string =>
                   match v with Some s => Ok s | None => Raise TypeError end)
                (map Some l) = Ok l).
  { induction l as [| a l IH]; simpl; [reflexivity |]. rewrite IH. reflexivity. }
  rewrite E. reflexivity.
Qed.

Lemma join_of_none (sep : string) (l : list (option string)) :
  In None l -> join_of sep l = Raise TypeError.
Proof.
  intros H. unfold join_of.
  assert (E : comprehension
                (fun v : option string =>
                   match v with Some s => Ok s | None => Raise TypeError end)
                l = Raise TypeError).
  { induction l as [| a l IH]; [destruct H |]. simpl.
    destruct a as [s |]; [| reflexivity]. simpl.
    rewrite IH; [reflexivity |]. destruct H as [H | H]; [discriminate | exact H]. }
  rewrite E. reflexivity.
Qed.

Lemma join_of_cases (sep : string) (l : list (option string)) :
  (exists s, join_of sep l = Ok s) \/ join_of sep l = Raise TypeError.
Proof.
  assert (H : Forall is_name l \/ In None l).
  { induction l as [| a l IH]; [left; constructor |].
    destruct a as [s |]; [| right; left; reflexivity].
    destruct IH as [IH | IH]; [left | right; right; exact IH].
    constructor; [exists s; reflexivity | exact IH]. }
  destruct H as [H | H]; [left | right; apply join_of_none; exact H].
  unfold join_of.
  destruct (comprehension_ok
              (fun v : option string =>
                 match v with Some s => Ok s | None => Raise TypeError end) l)
    as [r [Hr _]].
  - eapply Forall_impl; [| exact H]. intros a [s ->]. eexists; reflexivity.
  - rewrite Hr. eexists; reflexivity.
Qed.

Lemma item_last_snoc {A} (l : list A) (x : A) :
  Py.item_last (l ++ [x])%list = Ok x.
Proof.
  induction l as [| a l IH]; [reflexivity |].
  simpl. destruct (l ++ [x])%list eqn:E; [destruct l; discriminate | exact IH].
Qed.

Lemma but_last_snoc {A} (l : list A) (x : A) :
  Py.but_last (l ++ [x])%list = l.
Proof. apply removelast_last. Qed.

Lemma length_snoc_gt {A} (l : list A) (x : A) :
  l <> [] -> (1 <? List.length (l ++ [x])%list)%nat = true.
Proof.
  intros H. destruct l as [| a l]; [congruence |].
  rewrite length_app. simpl. apply Nat.ltb_lt. lia.
Qed.

Lemma chicago_shape (m : Metadata) (t : string) (a : option string) :
  title m = Some t -> t <> "" ->
  chicago_author_text (get_or (authors m) []) = Ok a ->
  exists rest,
    format_chicago_citation m = Ok (str_of a ++ ". " ++ dq ++ t ++ dq ++ rest).
Proof.
  intros Ht Hne Ha. unfold format_chicago_citation.
  rewrite (title_guard m t Ht Hne). unfold chicago_body. rewrite Ha, Ht.
  cbn [rbind item].
  decide_fields; eexists; rewrite ?append_assoc; simpl; rewrite ?append_assoc;
    reflexivity.
Qed.

Lemma chicago_raises (m : Metadata) (t : string) (e : exn) :
  title m = Some t -> t <> "" ->
  chicago_author_text (get_or (authors m) []) = Raise e ->
  format_chicago_citation m = Raise e.
Proof.
  intros Ht Hne Ha. unfold format_chicago_citation.
  rewrite (title_guard m t Ht Hne). unfold chicago_body. rewrite Ha. reflexivity.
Qed.

Lemma chicago_join (init : list string) (final : string) :
  init <> [] ->
  chicago_author_text (map Some (init ++ [final])%list)
  = Ok (Some (Py.join ", " init ++ ", and " ++ final)).
Proof.
  intros H. unfold chicago_author_text.
  rewrite length_map, (length_snoc_gt init final H).
  rewrite map_app. cbn [map]. rewrite but_last_snoc, item_last_snoc.
  rewrite join_of_names. cbn [rbind add_of]. rewrite append_assoc. reflexivity.
Qed.

Lemma chicago_none (l : list (option string)) :
  1 < List.length l -> In None l ->
  chicago_author_text l = Raise TypeError.
Proof.
  intros Hlen Hin. unfold chicago_author_text.
  apply Nat.ltb_lt in Hlen. rewrite Hlen.
  destruct (exists_last (l:=l)) as [init [final ->]].
  { intros ->. discriminate Hlen. }
  rewrite but_last_snoc, item_last_snoc.
  apply in_app_or in Hin. destruct Hin as [Hin | [-> | []]].
  - rewrite (join_of_none ", " init Hin). reflexivity.
  - destruct (join_of_cases ", " init) as [[s ->] | ->]; reflexivity.
Qed.

(** X2: Chicago author rendering, for a record with a nonempty title: the
    formatter returns a citation when every author is a string; two or more
    authors are joined with ", " and a final ", and " (so two authors give
    "A, and B"); a [None] entry among two or more authors raises
    [TypeError]; a single [None] author is printed as "None". *)
Theorem chicago_author_rendering (m : Metadata) (t : string) :
  title m = Some t -> t <> "" ->
  (forall names,
     authors m = Some (map Some names) ->
     exists c, format_chicago_citation m = Ok c)
  /\ (forall init final,
        init <> [] ->
        authors m = Some (map Some (init ++ [final])%list) ->
        exists rest,
          format_chicago_citation m
          = Ok ((Py.join ", " init ++ ", and " ++ final)
                ++ ". " ++ dq ++ t ++ dq ++ rest))
  /\ (forall l,
        authors m = Some l -> 1 < List.length l -> In None l ->
        format_chicago_citation m = Raise TypeError)
  /\ (authors m = Some [None] ->
      exists rest,
        format_chicago_citation m = Ok ("None" ++ ". " ++ dq ++ t ++ dq ++ rest)).
Proof.
  intros Ht Hne. repeat split.
  - intros names Ha.
    destruct (chicago_author_text_ok (map Some names)) as [s Hs].
    { apply Forall_forall. intros x Hx. apply in_map_iff in Hx.
      destruct Hx as [n [<- _]]. exists n. reflexivity. }
    destruct (chicago_shape m t (Some s) Ht Hne) as [rest Hr].
    { rewrite Ha. exact Hs. }
    eexists. exact Hr.
  - intros init final Hi Ha.
    apply (chicago_shape m t (Some (Py.join ", " init ++ ", and " ++ final))
             Ht Hne).
    rewrite Ha. apply chicago_join. exact Hi.
  - intros l Ha Hlen Hin. apply (chicago_raises m t TypeError Ht Hne).
    rewrite Ha. apply chicago_none; assumption.
  - intros Ha. apply (chicago_shape m t None Ht Hne). rewrite Ha. reflexivity.
Qed.

Lemma chicago_author_rendering_witness :
  format_chicago_citation
    (set_authors Sample.paper (Some [Some "Jane Doe"; None]))
  = Raise TypeError
  /\ exists rest,
       format_chicago_citation Sample.paper
       = Ok ((Py.join ", " ["Jane Doe"; "John Smith"] ++ ", and " ++ "Wei Li")
             ++ ". " ++ dq ++ "Example Paper" ++ dq ++ rest).
Proof.
  split.
  - destruct (chicago_author_rendering
                (set_authors Sample.paper (Some [Some "Jane Doe"; None]))
                "Example Paper") as [_ [_ [H _]]];
      [reflexivity | discriminate |].
    apply (H [Some "Jane Doe"; None]);
      [reflexivity | simpl; lia | simpl; tauto].
  - destruct (chicago_author_rendering Sample.paper "Example Paper")
      as [_ [H _]]; [reflexivity | discriminate |].
    apply (H ["Jane Doe"; "John Smith"] "Wei Li");
      [discriminate | reflexivity].
Defined.

(** X3: for a record with a nonempty title whose doi is absent or empty,
    the locator is the url (APA ". url", Chicago " url.", MLA ". url."), and
    when the url is absent or empty too the citation has no locator (MLA
    still adds its final period). *)
Theorem locator_without_doi (m : Metadata) (t : string) :
  title m = Some t -> t <> "" ->
  truthy (doi m) = false ->
  (forall u, url m = Some u -> u <> "" ->
     format_apa_citation m = (c <- apa_body m ;; Ok (c ++ ". " ++ u))
     /\ format_chicago_citation m
        = (c <- chicago_body m ;; Ok (c ++ " " ++ u ++ "."))
     /\ format_mla_citation m = (c <- mla_body m ;; Ok (c ++ ". " ++ u ++ ".")))
  /\ (truthy (url m) = false ->
      format_apa_citation m = apa_body m
      /\ format_chicago_citation m = chicago_body m
      /\ format_mla_citation m = (c <- mla_body m ;; Ok (c ++ "."))).
Proof.
  intros Ht Hne Hd.
  pose proof (title_guard m t Ht Hne) as G.
  unfold format_apa_citation, format_chicago_citation, format_mla_citation.
  rewrite G, Hd. split.
  - intros u Hu Hune. rewrite Hu, (truthy_nonempty u Hune). cbn [item rbind].
    repeat split.
    destruct (mla_body m) as [c | e]; [| reflexivity]. cbn [rbind].
    rewrite !append_assoc. reflexivity.
  - intros Hu. rewrite Hu. repeat split.
    + destruct (apa_body m); reflexivity.
    + destruct (chicago_body m); reflexivity.
Qed.

Lemma locator_without_doi_witness :
  let m := {| title := Some "A page"; authors := Some []; year := Some "2026";
              month := Some "November"; journal := Some ""; volume := Some "";
              issue := Some ""; doi := Some "";
              url := Some "https://example.org/"; publisher := Some "" |} in
  format_apa_citation m = (c <- apa_body m ;; Ok (c ++ ". " ++ "https://example.org/"))
  /\ format_chicago_citation m
     = (c <- chicago_body m ;; Ok (c ++ " " ++ "https://example.org/" ++ "."))
  /\ format_mla_citation m
     = (c <- mla_body m ;; Ok (c ++ ". " ++ "https://example.org/" ++ ".")).
Proof.
  intros m.
  destruct (locator_without_doi m "A page") as [H _];
    [reflexivity | discriminate | reflexivity |].
  apply (H "https://example.org/"); [reflexivity | discriminate].
Defined.

Lemma split_ws_aux_run (t cur rest : string) :
  all_chars (fun c => negb (Py.is_space c)) t = true ->
  Py.split_ws_aux cur (t ++ rest) = Py.split_ws_aux (cur ++ t) rest.
Proof.
  revert cur. induction t as [| c t IH]; intros cur H.
  - rewrite append_nil_r. reflexivity.
  - simpl in H. apply andb_prop in H. destruct H as [Hc Ht].
    apply negb_true_iff in Hc. simpl. rewrite Hc. rewrite (IH _ Ht).
    rewrite append_assoc. reflexivity.
Qed.

Lemma split_ws_join (toks : list string) :
  Forall (fun t => is_token t = true) toks ->
  Py.split_ws (Py.join " " toks) = toks.
Proof.
  unfold Py.split_ws, Py.join.
  induction 1 as [| t toks Ht Hts IH]; [reflexivity |].
  unfold is_token in Ht. apply andb_prop in Ht. destruct Ht as [Hne Hrun].
  destruct toks as [| t' toks].
  - simpl. rewrite <- (append_nil_r t) at 1.
    rewrite (split_ws_aux_run t "" "" Hrun). simpl.
    destruct t; [discriminate Hne | reflexivity].
  - change (String.concat " " (t :: t' :: toks))
      with (t ++ " " ++ String.concat " " (t' :: toks)).
    rewrite (split_ws_aux_run t "" _ Hrun).
    change ("" ++ t) with t.
    change (" " ++ String.concat " " (t' :: toks))
      with (String " " (String.concat " " (t' :: toks))).
    change (Py.split_ws_aux t (String " " (String.concat " " (t' :: toks))))
      with (if Py.is_empty t
            then Py.split_ws_aux "" (String.concat " " (t' :: toks))
            else t :: Py.split_ws_aux "" (String.concat " " (t' :: toks))).
    destruct t; [discriminate Hne |]. cbn [Py.is_empty]. rewrite IH.
    reflexivity.
Qed.

Lemma first_chars_initials (toks : list string) :
  Forall (fun t => t <> "") toks ->
  comprehension Py.first_char toks = Ok (map initial toks).
Proof.
  induction 1 as [| t toks Ht Hts IH]; [reflexivity |].
  simpl. destruct t; [congruence |]. simpl. rewrite IH. reflexivity.
Qed.

(** X4: the APA rendering of one author depends only on the author's
    whitespace-separated tokens: the last token is the family name and every
    earlier token contributes its first character, joined by ". " and closed
    by a period; surrounding or repeated whitespace does not matter.  A name
    written as tokens joined by single spaces splits back into them. *)
Theorem apa_author_form (givens : list string) (family : string) :
  (forall s,
     Py.split_ws s = (givens ++ [family])%list ->
     apa_author (Some s)
     = Ok (family ++ ", " ++ Py.join ". " (map initial givens) ++ "."))
  /\ (Forall (fun t => is_token t = true) (givens ++ [family])%list ->
      Py.split_ws (Py.join " " (givens ++ [family])%list)
      = (givens ++ [family])%list).
Proof.
  split; [| apply split_ws_join].
  intros s Hs. unfold apa_author. cbn [split_of rbind]. rewrite Hs.
  rewrite item_last_snoc, but_last_snoc. cbn [rbind].
  rewrite first_chars_initials; [reflexivity |].
  pose proof (split_ws_tokens s) as H. rewrite Hs in H.
  apply Forall_app in H. tauto.
Qed.

Lemma apa_author_form_witness :
  apa_author (Some "  Maria  del Carmen Ruiz ")
  = Ok ("Ruiz" ++ ", " ++ Py.join ". " (map initial ["Maria"; "del"; "Carmen"])
        ++ ".").
Proof.
  apply (apa_author_form ["Maria"; "del"; "Carmen"] "Ruiz"). reflexivity.
Defined.

Lemma comprehension_snoc {A B} (f : A -> result B) (l : list A) (rs : list B)
  (x : A) (r : B) :
  Forall2 (fun a y => f a = Ok y) l rs -> f x = Ok r ->
  comprehension f (l ++ [x])%list = Ok (rs ++ [r])%list.
Proof.
  intros H Hx. induction H as [| a y l rs Ha Hl IH]; simpl.
  - rewrite Hx. reflexivity.
  - rewrite Ha, IH. reflexivity.
Qed.

(** X5: with two or more authors the APA author segment is the renderings
    of all but the last joined by ", ", then ", & " and the last rendering
    (so two authors give "A, & B"). *)
Theorem apa_authors_joined (init : list (option string)) (rendered : list string)
  (final : option string) (r : string) :
  init <> [] ->
  Forall2 (fun a x => apa_author a = Ok x) init rendered ->
  apa_author final = Ok r ->
  apa_author_text (init ++ [final])%list
  = Ok (Py.join ", " rendered ++ ", & " ++ r).
Proof.
  intros Hne H Hf. unfold apa_author_text.
  rewrite (length_snoc_gt init final Hne).
  rewrite (comprehension_snoc apa_author init rendered final r H Hf).
  cbn [rbind]. rewrite item_last_snoc, but_last_snoc. reflexivity.
Qed.

Lemma apa_authors_joined_witness :
  apa_author_text ([Some "Jane Doe"; Some "John Smith"] ++ [Some "Wei Li"])%list
  = Ok (Py.join ", " ["Doe, J."; "Smith, J."] ++ ", & " ++ "Li, W.").
Proof.
  apply apa_authors_joined; [discriminate | | reflexivity].
  repeat constructor.
Defined.

(** X6: a record with a nonempty title and no author gives citations that
    start with the punctuation that normally follows the authors: " (" in
    APA, and ". " followed by the quoted title in Chicago and MLA. *)
Theorem no_authors_citation (m : Metadata) (t : string) :
  title m = Some t -> t <> "" ->
  authors m = None \/ authors m = Some [] ->
  (exists rest, format_apa_citation m = Ok (" (" ++ rest))
  /\ (exists rest,
        format_chicago_citation m = Ok (". " ++ dq ++ t ++ dq ++ rest))
  /\ (exists rest,
        format_mla_citation m = Ok (". " ++ dq ++ t ++ dq ++ rest)).
Proof.
  intros Ht Hne Ha.
  assert (E : get_or (authors m) [] = []) by (destruct Ha as [-> | ->]; reflexivity).
  repeat split.
  - apply (apa_shape m t "" Ht Hne). rewrite E. reflexivity.
  - apply (chicago_shape m t (Some "") Ht Hne). rewrite E. reflexivity.
  - destruct (mla_shape m t Ht Hne) as [rest H].
    exists rest. specialize (H (authors m)).
    rewrite set_authors_same, E in H. exact H.
Qed.

Lemma no_authors_citation_witness :
  exists rest,
    format_apa_citation (set_authors Sample.paper None) = Ok (" (" ++ rest).
Proof.
  apply (no_authors_citation (set_authors Sample.paper None) "Example Paper");
    [reflexivity | discriminate | left; reflexivity].
Defined.

Lemma doi_record_inv (d : string) (data : Work) (m : Metadata) :
  doi_record d data = Ok m ->
  doi m = Some d
  /\ url m = Some ("https://doi.org/" ++ d)
  /\ month m = Some "December"
  /\ authors m = Some (map (fun p => Some (person_name p))
                         (get_or (w_author data) []))
  /\ volume m = Some (get_or (w_volume data) "")
  /\ issue m = Some (get_or (w_issue data) "")
  /\ publisher m = Some (get_or (w_publisher data) "")
  /\ Py.item0 (get_or (w_title data) [""]) = item (title m)
  /\ Py.item0 (get_or (w_container_title data) [""]) = item (journal m).
Proof.
  unfold doi_record. intros H.
  destruct (Py.item0 (get_or (w_title data) [""])) as [t | e];
    [| discriminate H]. cbn [rbind] in H.
  destruct (Py.item0 _) as [parts | e] in H; [| discriminate H].
  cbn [rbind] in H.
  destruct (Py.item0 parts) as [part | e]; [| discriminate H].
  cbn [rbind] in H.
  destruct (Py.item0 (get_or (w_container_title data) [""])) as [j | e];
    [| discriminate H].
  cbn [rbind] in H. injection H as <-. repeat split.
Qed.

(** X7: every record the DOI extractor returns carries the DOI it was
    called with, the url https://doi.org/{doi}, the month "December" and
    author strings that all contain a space; it is a truthy dictionary, and
    exactly one request, to the registry, was sent. *)
Theorem doi_record_fields (W : World) (d : string) (st st' : State)
  (m : Metadata) :
  extract_doi_metadata W d st = (Ok (Some m), st') ->
  doi m = Some d
  /\ url m = Some ("https://doi.org/" ++ d)
  /\ month m = Some "December"
  /\ Forall is_name (get_or (authors m) [])
  /\ Forall (fun a => exists s, a = Some s /\ Py.contains " " s = true)
       (get_or (authors m) [])
  /\ meta_truthy (Some m) = true
  /\ sent st' = (sent st ++ [doi_request d])%list.
Proof.
  intros H. destruct (extract_doi_inv W d st st' m H)
    as [-> [response [data [_ [_ R]]]]].
  destruct (doi_record_inv d data m R) as [Hd [Hu [Hm [Ha _]]]].
  repeat split; try assumption.
  - rewrite Ha. cbn [get_or]. apply Forall_forall. intros a Hin.
    apply in_map_iff in Hin. destruct Hin as [p [<- _]]. eexists; reflexivity.
  - rewrite Ha. cbn [get_or]. apply Forall_forall. intros a Hin.
    apply in_map_iff in Hin. destruct Hin as [p [<- _]].
    eexists. split; [reflexivity |]. unfold person_name.
    generalize (get_or (given p) ""). intros g.
    induction g as [| c g IH].
    + cbn [append Py.contains prefix].
      destruct (ascii_dec " " " "); [| congruence].
      destruct (get_or (family p) ""); reflexivity.
    + cbn [append Py.contains]. cbn [append] in IH. rewrite IH.
      apply orb_true_r.
  - cbn [meta_truthy]. unfold dict_truthy. rewrite Hd.
    destruct (title m), (authors m), (year m), (month m), (journal m),
      (volume m), (issue m); reflexivity.
Qed.

Lemma doi_record_fields_witness :
  exists m st',
    extract_doi_metadata (Sample.world Sample.work) "10.1000/xyz123" start
    = (Ok (Some m), st')
    /\ month m = Some "December" /\ doi m = Some "10.1000/xyz123".
Proof.
  eexists. eexists. split; [reflexivity |].
  pose proof (doi_record_fields (Sample.world Sample.work) "10.1000/xyz123"
                start _ _ eq_refl) as H.
  split; [apply H | apply H].
Defined.

Lemma all_space_append (a b : string) :
  all_space (a ++ b) = all_space a && all_space b.
Proof.
  induction a as [| c a IH]; [reflexivity |].
  simpl. rewrite IH. apply andb_assoc.
Qed.

Lemma dict_truthy_title (m : Metadata) (t : string) :
  title m = Some t -> dict_truthy m = true.
Proof. intros H. unfold dict_truthy. rewrite H. reflexivity. Qed.

Lemma extract_doi_success (W : World) (d : string) (st : State)
  (response : Response) (data : Work) (m : Metadata) :
  requests_get W (List.length (sent st)) (doi_request d) = Ok response ->
  json W response = Ok {| message := Some data |} ->
  doi_record d data = Ok m ->
  extract_doi_metadata W d st
  = (Ok (Some m), after_request st (doi_request d)).
Proof.
  intros Hget Hjson R.
  unfold extract_doi_metadata, try_except, mbind, http_get, lift.
  change {| req_url := "https://api.crossref.org/works/" ++ d;
            req_headers := [("Accept", "application/json")] |}
    with (doi_request d).
  rewrite Hget, Hjson. cbn [rbind item message]. rewrite R. reflexivity.
Qed.

(** What [main] does once the classifier has returned a record. *)
Lemma main_with_record (W : World) (url : string) (style : Style)
  (st st' : State) (m : Metadata) :
  Py.is_empty url = false ->
  identify_url_type W url st = (Ok (Some m), st') ->
  dict_truthy m = true ->
  main W url style st
  = match format_citation style m with
    | Ok citation =>
        (Ok tt, {| sent := sent st'; clock_reads := clock_reads st';
                   page := (page st' ++ [style_header style; citation])%list |})
    | Raise e =>
        (Raise e, {| sent := sent st'; clock_reads := clock_reads st';
                     page := (page st' ++ [style_header style])%list |})
    end.
Proof.
  intros Hu Hid Hm. unfold main. rewrite Hu. cbn [negb].
  unfold mbind at 1. rewrite Hid. rewrite Hm.
  unfold mbind, st_write, lift. cbn [sent clock_reads page].
  destruct (format_citation style m) as [c | e]; [| reflexivity].
  cbn [sent clock_reads page]. rewrite <- app_assoc. reflexivity.
Qed.

Lemma identify_doi_success (W : World) (url : string) (st st' : State)
  (dm : Re.Match) (m : Metadata) :
  Re.search doi_pattern url = Some dm ->
  extract_doi_metadata W (Re.group0 dm) st = (Ok (Some m), st') ->
  dict_truthy m = true ->
  identify_url_type W url st = (Ok (Some m), st').
Proof.
  intros Hs He Hm. unfold identify_url_type. rewrite Hs.
  cbn [matched orb doi_candidate]. unfold mbind at 1. unfold lift at 1.
  unfold mbind. rewrite He. cbn [meta_truthy]. rewrite Hm. reflexivity.
Qed.

(** X8: when the registry's answer for a DOI link has a nonempty title
    and an author entry without given and family name (each absent, empty
    or blank), the APA run writes its header and then raises [IndexError],
    while the Chicago and MLA runs of the same input write a citation. *)
Theorem nameless_author_crashes_apa (W : World) (d : string)
  (response : Response) (data : Work) (m : Metadata) (t : string) (p : Person) :
  Re.fullmatch doi_pattern d = true ->
  requests_get W 0 (doi_request d) = Ok response ->
  json W response = Ok {| message := Some data |} ->
  doi_record d data = Ok m ->
  title m = Some t -> t <> "" ->
  In p (get_or (w_author data) []) ->
  all_space (get_or (given p) "") = true ->
  all_space (get_or (family p) "") = true ->
  main W ("https://doi.org/" ++ d) APA start
  = (Raise IndexError,
     {| sent := [doi_request d]; clock_reads := 0;
        page := ["American Psychological Association Style"] |})
  /\ (exists citation,
        main W ("https://doi.org/" ++ d) Chicago start
        = (Ok tt,
           {| sent := [doi_request d]; clock_reads := 0;
              page := ["Chicago Style"; citation] |}))
  /\ (exists citation,
        main W ("https://doi.org/" ++ d) MLA start
        = (Ok tt,
           {| sent := [doi_request d]; clock_reads := 0;
              page := ["Modern Language Association Style"; citation] |})).
Proof.
  intros Hd Hget Hjson R Ht Hne Hin Hg Hf.
  pose proof (dict_truthy_title m t Ht) as Hm.
  assert (Hid : identify_url_type W ("https://doi.org/" ++ d) start
                = (Ok (Some m), after_request start (doi_request d))).
  { apply (identify_doi_success W _ start _
             {| Re.group0 := d; Re.group1 := None |} m);
      [apply doi_search_link; exact Hd | | exact Hm].
    apply (extract_doi_success W d start response data m); assumption. }
  pose proof (fun style =>
                main_with_record W ("https://doi.org/" ++ d) style start _ m
                  (eq_refl : Py.is_empty ("https://doi.org/" ++ d) = false)
                  Hid Hm) as Hmain.
  destruct (doi_record_inv d data m R) as [_ [_ [_ [Ha _]]]].
  rewrite <- map_map in Ha.
  split; [| split].
  - rewrite Hmain. cbn [format_citation].
    rewrite (apa_raises m t IndexError Ht Hne); [reflexivity |].
    rewrite Ha. cbn [get_or]. apply apa_author_text_no_token.
    apply Exists_exists. exists (person_name p). split.
    + apply in_map. exact Hin.
    + apply split_ws_nil. unfold person_name.
      rewrite !all_space_append, Hg, Hf. reflexivity.
  - rewrite Hmain. cbn [format_citation].
    destruct (chicago_author_text_ok (get_or (authors m) [])) as [s Hs].
    { rewrite Ha. cbn [get_or]. apply Forall_forall. intros a Hx.
      apply in_map_iff in Hx. destruct Hx as [n [<- _]]. exists n. reflexivity. }
    destruct (chicago_shape m t (Some s) Ht Hne Hs) as [rest ->].
    eexists. reflexivity.
  - rewrite Hmain. cbn [format_citation].
    destruct (mla_shape m t Ht Hne) as [rest Hr].
    specialize (Hr (authors m)). rewrite set_authors_same in Hr. rewrite Hr.
    eexists. reflexivity.
Qed.

Lemma split_aux_nonempty (sep : string) (s : string) (skip : nat) (cur : string) :
  Py.split_aux sep skip cur s <> [].
Proof.
  revert skip cur. induction s as [| c s IH]; intros skip cur;
    cbn [Py.split_aux].
  - discriminate.
  - destruct skip; [| apply IH].
    destruct (prefix sep (String c s)); [discriminate | apply IH].
Qed.

Lemma doi_candidate_returns (dm : option Re.Match) (url : string) :
  exists d, doi_candidate dm url = Ok d.
Proof.
  destruct dm as [dm |]; simpl; [eexists; reflexivity |].
  apply item_last_ok. apply split_aux_nonempty.
Qed.

Lemma split_no_occurrence (sep s cur : string) :
  Py.contains sep s = false -> Py.split_aux sep 0 cur s = [cur ++ s].
Proof.
  revert cur. induction s as [| c s IH]; intros cur H.
  - rewrite append_nil_r. reflexivity.
  - cbn [Py.contains] in H. apply orb_false_elim in H. destruct H as [Hp Hc].
    cbn [Py.split_aux]. rewrite Hp. rewrite (IH _ Hc).
    rewrite append_assoc. reflexivity.
Qed.

Lemma arxiv_record_inv (W : World) (arxiv_id : string) (entry : Element)
  (m : Metadata) :
  arxiv_record W arxiv_id entry = Ok m ->
  doi m = None
  /\ url m = Some ("https://arxiv.org/abs/" ++ arxiv_id)
  /\ journal m = Some "arXiv"
  /\ publisher m = Some "Cornell University"
  /\ volume m = None /\ issue m = None
  /\ (exists t, title m = Some t)
  /\ (exists e s, find entry (atom "title") = Some e /\ el_text e = Some s
                  /\ title m = Some (Py.strip s))
  /\ (exists e s date,
        find entry (atom "published") = Some e /\ el_text e = Some s
        /\ strptime_ymd W (Py.slice_to 10 s) = Ok date
        /\ year m = Some (Py.slice_to 4 s)
        /\ month m = Some (month_name date)).
Proof.
  unfold arxiv_record. intros H.
  destruct (find entry (atom "title")) as [te |]; [| discriminate H].
  cbn [text_of rbind] in H.
  destruct (el_text te) as [ts |] eqn:Ets; [| discriminate H].
  cbn [strip_of rbind] in H.
  destruct (comprehension _ _) as [names | e]; [| discriminate H].
  cbn [rbind] in H.
  destruct (find entry (atom "published")) as [pe |]; [| discriminate H].
  cbn [text_of rbind] in H.
  destruct (el_text pe) as [ps |] eqn:Eps; [| discriminate H].
  cbn [slice_of rbind] in H.
  destruct (strptime_ymd W (Py.slice_to 10 ps)) as [date | e] eqn:Ed;
    [| discriminate H].
  cbn [rbind] in H. injection H as <-. cbn.
  repeat split.
  - eexists; reflexivity.
  - exists te, ts. repeat split. exact Ets.
  - exists pe, ps, date. repeat split; assumption.
Qed.

Lemma arxiv_record_truthy (W : World) (arxiv_id : string) (st st' : State)
  (m : Metadata) :
  extract_arxiv_metadata W arxiv_id st = (Ok (Some m), st') ->
  dict_truthy m = true.
Proof.
  intros H. destruct (extract_arxiv_inv W arxiv_id st st' m H)
    as [_ [response [root [entry [_ [_ [_ R]]]]]]].
  destruct (arxiv_record_inv W arxiv_id entry m R) as [_ [_ [_ [_ [_ [_ [[t Ht] _]]]]]]].
  apply (dict_truthy_title m t Ht).
Qed.

Lemma doi_record_truthy (W : World) (d : string) (st st' : State)
  (m : Metadata) :
  extract_doi_metadata W d st = (Ok (Some m), st') ->
  dict_truthy m = true.
Proof.
  intros H. destruct (extract_doi_inv W d st st' m H)
    as [_ [response [data [_ [_ R]]]]].
  destruct (doi_record_inv d data m R) as [Hd _].
  unfold dict_truthy. rewrite Hd.
  destruct (title m), (authors m), (year m), (month m), (journal m),
    (volume m), (issue m); reflexivity.
Qed.

(** The requests of the last two steps of the classifier. *)
Lemma try_arxiv_requests (W : World) (url : string) (st : State) :
  exists v st' la lg,
    try_arxiv W url st = (Ok v, st')
    /\ sent st' = (sent st ++ la ++ lg)%list
    /\ (la = [] \/ exists i, la = [arxiv_request i])
    /\ (lg = [] \/ lg = [general_request url])
    /\ (v = None -> lg = [general_request url])
    /\ (la ++ lg)%list <> [].
Proof.
  unfold try_arxiv.
  destruct (Re.search arxiv_pattern url) as [am |].
  - unfold mbind.
    destruct (extract_arxiv_returns W (str_of (Re.group1 am)) st) as [v1 ->].
    destruct (meta_truthy v1) eqn:T.
    + exists v1, (after_request st (arxiv_request (str_of (Re.group1 am)))),
        [arxiv_request (str_of (Re.group1 am))], [].
      repeat split; eauto.
      * intros ->. discriminate T.
      * discriminate.
    + destruct (extract_general_returns W url
                  (after_request st (arxiv_request (str_of (Re.group1 am)))))
        as [v [st' [-> Hs]]].
      exists v, st', [arxiv_request (str_of (Re.group1 am))],
        [general_request url].
      repeat split; eauto.
      * rewrite Hs. cbn [sent after_request]. rewrite <- app_assoc. reflexivity.
      * discriminate.
  - destruct (extract_general_returns W url st) as [v [st' [-> Hs]]].
    exists v, st', [], [general_request url].
    repeat split; eauto. discriminate.
Qed.

(** X9: the classifier never raises.  It sends between one and three
    requests, always in the order registry, arXiv, page, at most one of
    each, and it returns [None] only after the generic extractor was
    tried. *)
Theorem classifier_requests (W : World) (url : string) (st : State) :
  exists v st' ld la lg,
    identify_url_type W url st = (Ok v, st')
    /\ sent st' = (sent st ++ ld ++ la ++ lg)%list
    /\ (ld = [] \/ exists d, ld = [doi_request d])
    /\ (la = [] \/ exists i, la = [arxiv_request i])
    /\ (lg = [] \/ lg = [general_request url])
    /\ (v = None -> lg = [general_request url])
    /\ (ld ++ la ++ lg)%list <> [].
Proof.
  unfold identify_url_type.
  destruct (matched (Re.search doi_pattern url) || Py.contains "doi.org" url).
  - destruct (doi_candidate_returns (Re.search doi_pattern url) url) as [d Hd].
    unfold mbind at 1. unfold lift at 1. rewrite Hd. unfold mbind.
    destruct (extract_doi_returns W d st) as [v1 ->].
    destruct (meta_truthy v1) eqn:T.
    + exists v1, (after_request st (doi_request d)), [doi_request d], [], [].
      repeat split; eauto.
      * intros ->. discriminate T.
      * discriminate.
    + destruct (try_arxiv_requests W url (after_request st (doi_request d)))
        as [v [st' [la [lg [-> [Hs [Ha [Hg [Hn _]]]]]]]]].
      exists v, st', [doi_request d], la, lg.
      repeat split; eauto.
      * rewrite Hs. cbn [sent after_request]. rewrite <- app_assoc. reflexivity.
      * discriminate.
  - destruct (try_arxiv_requests W url st)
      as [v [st' [la [lg [-> [Hs [Ha [Hg [Hn Hne]]]]]]]]].
    exists v, st', [], la, lg. repeat split; eauto.
Qed.

(** X10: the first extractor that returns a record wins: a record from
    the DOI extractor is returned after the registry request alone, even
    when the URL also matches the arXiv pattern, and for a URL without DOI
    match or "doi.org" a record from the arXiv extractor is returned after
    the arXiv request alone. *)
Theorem first_success_wins (W : World) (url : string) (st st1 : State)
  (m : Metadata) :
  (forall dm,
     Re.search doi_pattern url = Some dm ->
     extract_doi_metadata W (Re.group0 dm) st = (Ok (Some m), st1) ->
     identify_url_type W url st = (Ok (Some m), st1)
     /\ sent st1 = (sent st ++ [doi_request (Re.group0 dm)])%list)
  /\ (forall am,
        Re.search doi_pattern url = None ->
        Py.contains "doi.org" url = false ->
        Re.search arxiv_pattern url = Some am ->
        extract_arxiv_metadata W (str_of (Re.group1 am)) st
        = (Ok (Some m), st1) ->
        identify_url_type W url st = (Ok (Some m), st1)
        /\ sent st1
           = (sent st ++ [arxiv_request (str_of (Re.group1 am))])%list).
Proof.
  split.
  - intros dm Hs He. split.
    + apply (identify_doi_success W url st st1 dm m Hs He).
      apply (doi_record_truthy W _ st st1 m He).
    + destruct (extract_doi_inv W _ st st1 m He) as [-> _]. reflexivity.
  - intros am Hs Hc Ha He. split.
    + unfold identify_url_type. rewrite Hs, Hc. cbn [matched orb].
      unfold try_arxiv. rewrite Ha. unfold mbind. rewrite He.
      cbn [meta_truthy]. rewrite (arxiv_record_truthy W _ st st1 m He).
      reflexivity.
    + destruct (extract_arxiv_inv W _ st st1 m He) as [-> _]. reflexivity.
Qed.

(** X11: a URL that contains "doi.org" but neither a DOI match nor
    "doi.org/" makes the classifier call the DOI extractor with the whole
    URL. *)
Theorem doi_org_without_slash (W : World) (url : string) :
  Re.search doi_pattern url = None ->
  Py.contains "doi.org" url = true ->
  Py.contains "doi.org/" url = false ->
  doi_candidate (Re.search doi_pattern url) url = Ok url
  /\ identify_url_type W url
     = (metadata <~ extract_doi_metadata W url ;;
        if meta_truthy metadata then mret metadata else try_arxiv W url).
Proof.
  intros Hs Hc Hn.
  assert (E : doi_candidate None url = Ok url).
  { unfold doi_candidate, Py.split. rewrite (split_no_occurrence _ _ _ Hn).
    reflexivity. }
  split; [rewrite Hs; exact E |].
  unfold identify_url_type. rewrite Hs, Hc. cbn [matched orb]. rewrite E.
  reflexivity.
Qed.

Lemma doi_org_without_slash_witness :
  doi_candidate (Re.search doi_pattern "https://doi.org") "https://doi.org"
  = Ok "https://doi.org"
  /\ identify_url_type (Sample.world Sample.work) "https://doi.org"
     = (metadata <~ extract_doi_metadata (Sample.world Sample.work)
                      "https://doi.org" ;;
        if meta_truthy metadata then mret metadata
        else try_arxiv (Sample.world Sample.work) "https://doi.org").
Proof.
  apply (doi_org_without_slash (Sample.world Sample.work) "https://doi.org");
    reflexivity.
Defined.

(** The DOI pattern run on a string of the right shape hands the text that
    follows to the continuation. *)
Lemma doi_exec {A} (digits suffix tail : string)
  (k : string -> option string -> option A) (a : A) :
  all_chars Py.is_digit digits = true -> 4 <= String.length digits ->
  all_chars doi_char suffix = true -> 1 <= String.length suffix ->
  starts_with doi_char tail = false ->
  k tail None = Some a ->
  Re.exec doi_pattern (("10." ++ digits ++ "/" ++ suffix) ++ tail) None k
  = Some a.
Proof.
  intros Hdig Hlen Hsuf Hslen Htail Hk. unfold doi_pattern.
  rewrite !append_assoc.
  cbn -[Ascii.eqb Re.rep]. rewrite !Ascii.eqb_refl.
  apply rep_greedy; auto.
  cbn -[Ascii.eqb Re.rep]. rewrite !Ascii.eqb_refl.
  apply rep_greedy; auto.
Qed.

Lemma doi_fullmatch_intro (digits suffix : string) :
  all_chars Py.is_digit digits = true -> 4 <= String.length digits ->
  all_chars doi_char suffix = true -> 1 <= String.length suffix ->
  Re.fullmatch doi_pattern ("10." ++ digits ++ "/" ++ suffix) = true.
Proof.
  intros Hdig Hlen Hsuf Hslen. unfold Re.fullmatch.
  rewrite <- (append_nil_r ("10." ++ digits ++ "/" ++ suffix)).
  rewrite (doi_exec digits suffix "" _ tt); auto.
Qed.

Lemma doi_match_here_inv (s : string) (m : Re.Match) :
  Re.match_here doi_pattern s = Some m ->
  exists digits suffix tail,
    s = ("10." ++ digits ++ "/" ++ suffix) ++ tail
    /\ all_chars Py.is_digit digits = true /\ 4 <= String.length digits
    /\ all_chars doi_char suffix = true /\ 1 <= String.length suffix
    /\ m = {| Re.group0 := "10." ++ digits ++ "/" ++ suffix;
              Re.group1 := None |}.
Proof.
  unfold Re.match_here, doi_pattern. intros H.
  destruct s as [| c1 s]; cbn -[Ascii.eqb Re.consumed] in H; [discriminate H |].
  destruct (Ascii.eqb_spec "1" c1) as [<- |]; [| discriminate H].
  destruct s as [| c2 s]; cbn -[Ascii.eqb Re.consumed] in H; [discriminate H |].
  destruct (Ascii.eqb_spec "0" c2) as [<- |]; [| discriminate H].
  destruct s as [| c3 s]; cbn -[Ascii.eqb Re.consumed] in H; [discriminate H |].
  destruct (Ascii.eqb_spec "." c3) as [<- |]; [| discriminate H].
  apply rep_inv in H.
  destruct H as [digits [rest [-> [Hdig [Hlen Hk]]]]].
  destruct rest as [| c rest]; [discriminate Hk |].
  destruct (Ascii.eqb_spec "/" c) as [<- |]; [| discriminate Hk].
  apply rep_inv in Hk.
  destruct Hk as [suffix [tail [-> [Hsuf [Hslen Hend]]]]].
  exists digits, suffix, tail. repeat split; auto.
  - rewrite !append_assoc. reflexivity.
  - injection Hend as <-. f_equal.
    change (String "1" (String "0" (String "." (digits ++ String "/" (suffix ++ tail)))))
      with ("10." ++ digits ++ "/" ++ suffix ++ tail).
    rewrite <- !append_assoc. rewrite consumed_append.
    rewrite !append_assoc. reflexivity.
Qed.

Lemma search_inv (r : Re.regex) (s : string) (m : Re.Match) :
  Re.search r s = Some m ->
  exists pre post, s = pre ++ post /\ Re.match_here r post = Some m.
Proof.
  induction s as [| c s IH]; cbn [Re.search]; intros H.
  - destruct (Re.match_here r "") eqn:E; [| discriminate H].
    injection H as ->. exists "", "". auto.
  - destruct (Re.match_here r (String c s)) eqn:E.
    + injection H as ->. exists "", (String c s). auto.
    + destruct (IH H) as [pre [post [-> Hm]]].
      exists (String c pre), post. auto.
Qed.

(** X12: whatever the URL, a DOI match is a substring of the URL that the
    DOI pattern matches in full, and it has no group 1. *)
Theorem doi_search_sound (url : string) (m : Re.Match) :
  Re.search doi_pattern url = Some m ->
  Re.fullmatch doi_pattern (Re.group0 m) = true
  /\ Re.group1 m = None
  /\ exists pre post, url = pre ++ Re.group0 m ++ post.
Proof.
  intros H. destruct (search_inv _ _ _ H) as [pre [post [-> Hm]]].
  destruct (doi_match_here_inv post m Hm)
    as [digits [suffix [tail [-> [Hdig [Hlen [Hsuf [Hslen ->]]]]]]]].
  cbn [Re.group0 Re.group1]. repeat split.
  - apply doi_fullmatch_intro; assumption.
  - exists pre, tail. rewrite !append_assoc. reflexivity.
Qed.

Lemma doi_search_sound_witness :
  Re.fullmatch doi_pattern "10.12345/a-b_c(1);x" = true
  /\ exists pre post,
       "see 10.12345/a-b_c(1);x?q=10.1000/zz"
       = pre ++ "10.12345/a-b_c(1);x" ++ post.
Proof.
  pose proof (doi_search_sound "see 10.12345/a-b_c(1);x?q=10.1000/zz"
                {| Re.group0 := "10.12345/a-b_c(1);x"; Re.group1 := None |}
                eq_refl) as H.
  split; apply H.
Defined.

(** The identifier part of the arXiv pattern, [\d+\.\d+], on an identifier
    followed by a text that does not start with a digit. *)
Lemma arxiv_id_exec {A} (a b tail : string) (k : string -> option A) (x : A) :
  all_chars Py.is_digit a = true -> 1 <= String.length a ->
  all_chars Py.is_digit b = true -> 1 <= String.length b ->
  starts_with Py.is_digit tail = false ->
  k tail = Some x ->
  Re.rep Py.is_digit 1 ((a ++ "." ++ b) ++ tail)
    (fun s' =>
       match s' with
       | EmptyString => None
       | String c' s'0 =>
           if Ascii.eqb "." c' then Re.rep Py.is_digit 1 s'0 k else None
       end)
  = Some x.
Proof.
  intros Ha Hla Hb Hlb Htail Hk.
  rewrite append_assoc. apply rep_greedy; auto.
  cbn [append]. rewrite Ascii.eqb_refl. apply rep_greedy; auto.
Qed.

(** X13: in a text that starts with "arxiv", any character but a newline,
    "org/", "abs" or "pdf", "/" and an identifier digits.digits, the arXiv
    pattern matches and its group 1 is the identifier alone: what follows
    the identifier (a version suffix, ".pdf") is dropped, and the dot of
    "arxiv.org" may be any character. *)
Theorem arxiv_match_form (c : ascii) (kind a b tail : string) :
  c <> ascii_of_nat 10 ->
  kind = "abs" \/ kind = "pdf" ->
  all_chars Py.is_digit a = true -> 1 <= String.length a ->
  all_chars Py.is_digit b = true -> 1 <= String.length b ->
  starts_with Py.is_digit tail = false ->
  Re.search arxiv_pattern
    ("arxiv" ++ String c ("org/" ++ kind ++ "/" ++ (a ++ "." ++ b) ++ tail))
  = Some {| Re.group0 := "arxiv" ++ String c ("org/" ++ kind ++ "/" ++ a ++ "." ++ b);
            Re.group1 := Some (a ++ "." ++ b) |}.
Proof.
  intros Hn Hkind Ha Hla Hb Hlb Htail.
  assert (Hc : Ascii.eqb c "010" = false) by (apply Ascii.eqb_neq; exact Hn).
  apply search_found. unfold Re.match_here, arxiv_pattern.
  assert (G : Re.consumed ((a ++ "." ++ b) ++ tail) tail = a ++ "." ++ b)
    by apply consumed_append.
  assert (G0 : forall pre : string,
             Re.consumed (pre ++ (a ++ "." ++ b) ++ tail) tail
             = pre ++ a ++ "." ++ b).
  { intros pre. rewrite <- append_assoc. rewrite consumed_append.
    reflexivity. }
  destruct Hkind as [-> | ->].
  - cbn -[Ascii.eqb Re.consumed Re.rep]. rewrite !Ascii.eqb_refl, Hc.
    erewrite (arxiv_id_exec a b tail); eauto.
    f_equal. f_equal; [| f_equal; exact G].
    exact (G0 ("arxiv" ++ String c ("org/" ++ "abs" ++ "/"))).
  - cbn -[Ascii.eqb Re.consumed Re.rep]. rewrite !Ascii.eqb_refl, Hc.
    change (Ascii.eqb "a" "p") with false. cbv iota.
    erewrite (arxiv_id_exec a b tail); eauto.
    f_equal. f_equal; [| f_equal; exact G].
    exact (G0 ("arxiv" ++ String c ("org/" ++ "pdf" ++ "/"))).
Qed.

Lemma arxiv_match_form_witness :
  Re.search arxiv_pattern
    ("arxiv" ++ String "-" ("org/" ++ "pdf" ++ "/" ++ ("2301" ++ "." ++ "12345")
                            ++ "v2.pdf"))
  = Some {| Re.group0 := "arxiv-org/pdf/2301.12345";
            Re.group1 := Some "2301.12345" |}.
Proof.
  apply (arxiv_match_form "-" "pdf" "2301" "12345" "v2.pdf");
    [discriminate | right; reflexivity | reflexivity | simpl; lia
    | reflexivity | simpl; lia | reflexivity].
Defined.

Ltac case_matches :=
  repeat match goal with
    | |- context [match ?x with _ => _ end] => destruct x
    end.

(** One stage of [scrape] that leaves the observed field alone: the goal
    moves to the record the stage started from. *)
Ltac peel_stage :=
  match goal with
  | |- ?P (match ?o with Some _ => _ | None => ?M end) = _ =>
      transitivity (P M);
      [ destruct o;
        [ try match goal with
            | |- _ (match ?r with Ok _ => _ | Raise _ => _ end) = _ =>
                destruct r
            end
        | ];
        reflexivity
      | ]
  end.

Lemma scrape_keeps (W : World) (soup : Soup) (m : Metadata) :
  doi (scrape W soup m) = doi m
  /\ url (scrape W soup m) = url m
  /\ publisher (scrape W soup m) = publisher m.
Proof.
  unfold scrape, or_else. cbv zeta.
  repeat split; do 4 peel_stage;
    destruct (soup_find_all soup "meta" "name" "citation_author");
    destruct (soup_find soup "meta" "name" "author");
    destruct (soup_find soup "meta" "property" "article:author");
    destruct (soup_find soup "meta" "property" "og:title");
    destruct (soup_find soup "meta" "property" "dc:title");
    destruct (soup_find soup "meta" "name" "citation_title");
    destruct (soup_title soup); reflexivity.
Qed.

Lemma scrape_title (W : World) (soup : Soup) (m : Metadata) :
  title (scrape W soup m) = scraped_title soup (title m).
Proof.
  unfold scrape, scraped_title, or_else. cbv zeta.
  do 4 peel_stage.
  destruct (soup_find_all soup "meta" "name" "citation_author");
    destruct (soup_find soup "meta" "name" "author");
    destruct (soup_find soup "meta" "property" "article:author");
    destruct (soup_find soup "meta" "property" "og:title");
    destruct (soup_find soup "meta" "property" "dc:title");
    destruct (soup_find soup "meta" "name" "citation_title");
    destruct (soup_title soup); reflexivity.
Qed.

Lemma scrape_authors (W : World) (soup : Soup) (m : Metadata) :
  authors (scrape W soup m)
  = match soup_find_all soup "meta" "name" "citation_author" with
    | _ :: _ =>
        Some (map (fun tg => Some (content tg))
                (soup_find_all soup "meta" "name" "citation_author"))
    | [] =>
        match soup_find soup "meta" "name" "author" with
        | Some tg => Some [Some (content tg)]
        | None =>
            match soup_find soup "meta" "property" "article:author" with
            | Some tg => Some [Some (content tg)]
            | None => authors m
            end
        end
    end.
Proof.
  unfold scrape, or_else. cbv zeta.
  do 4 peel_stage.
  destruct (soup_find_all soup "meta" "name" "citation_author");
    destruct (soup_find soup "meta" "name" "author");
    destruct (soup_find soup "meta" "property" "article:author");
    destruct (soup_find soup "meta" "property" "og:title");
    destruct (soup_find soup "meta" "property" "dc:title");
    destruct (soup_find soup "meta" "name" "citation_title");
    destruct (soup_title soup); reflexivity.
Qed.

Lemma extract_general_success (W : World) (url : string) (st : State)
  (response : Response) (soup : Soup) :
  requests_get W (List.length (sent st)) (general_request url) = Ok response ->
  BeautifulSoup W (body response) = Ok soup ->
  extract_general_metadata W url st
  = (Ok (Some (scrape W soup
                 (page_defaults url (datetime_now W (clock_reads st))
                    (datetime_now W (S (clock_reads st)))))),
     {| sent := (sent st ++ [general_request url])%list;
        clock_reads := S (S (clock_reads st)); page := page st |}).
Proof.
  intros Hget Hsoup.
  unfold extract_general_metadata, try_except, mbind, http_get, lift, now, mret.
  fold (general_request url). rewrite Hget, Hsoup. reflexivity.
Qed.

(** X14: when the page is fetched and parsed, the generic extractor
    returns a record after one request and two readings of the clock; its
    url is the input URL, it has no doi, its publisher is empty, its title
    is the first of og:title, dc:title, citation_title and the title
    element, its authors are strings, and when there are citation_author
    tags the authors are their contents in document order. *)
Theorem generic_record_fields (W : World) (link : string) (st : State)
  (response : Response) (soup : Soup) :
  requests_get W (List.length (sent st)) (general_request link) = Ok response ->
  BeautifulSoup W (body response) = Ok soup ->
  exists m,
    extract_general_metadata W link st
    = (Ok (Some m),
       {| sent := (sent st ++ [general_request link])%list;
          clock_reads := S (S (clock_reads st)); page := page st |})
    /\ url m = Some link /\ doi m = None /\ publisher m = Some ""
    /\ title m = scraped_title soup (Some "")
    /\ Forall is_name (get_or (authors m) [])
    /\ (soup_find_all soup "meta" "name" "citation_author" <> [] ->
        authors m
        = Some (map (fun tg => Some (content tg))
                  (soup_find_all soup "meta" "name" "citation_author"))).
Proof.
  intros Hget Hsoup. eexists. split.
  { apply (extract_general_success W link st response soup Hget Hsoup). }
  set (base := page_defaults link _ _).
  destruct (scrape_keeps W soup base) as [Hd [Hu Hp]].
  split; [rewrite Hu; reflexivity |].
  split; [rewrite Hd; reflexivity |].
  split; [rewrite Hp; reflexivity |].
  split; [apply scrape_title |].
  rewrite scrape_authors. split.
  - destruct (soup_find_all soup "meta" "name" "citation_author") as [| a l] eqn:E.
    + destruct (soup_find soup "meta" "name" "author");
        [| destruct (soup_find soup "meta" "property" "article:author")];
        cbn [get_or authors base page_defaults];
        repeat constructor; eexists; reflexivity.
    + cbn [get_or]. apply Forall_forall. intros x Hx.
      apply in_map_iff in Hx. destruct Hx as [tg [<- _]]. eexists; reflexivity.
  - intros Hne.
    destruct (soup_find_all soup "meta" "name" "citation_author");
      [congruence | reflexivity].
Qed.

Lemma generic_record_fields_witness :
  exists m st',
    extract_general_metadata (Sample.world Sample.work) "https://example.org/"
      start = (Ok (Some m), st')
    /\ url m = Some "https://example.org/" /\ doi m = None
    /\ title m = Some "A page".
Proof.
  destruct (generic_record_fields (Sample.world Sample.work)
              "https://example.org/" start {| body := "" |} Sample.page_tags
              eq_refl eq_refl) as [m [H [Hu [Hd [_ [Ht _]]]]]].
  exists m. eexists. split; [exact H |]. auto.
Defined.

Lemma unable_when_no_title (style : Style) (m : Metadata) :
  truthy (title m) = false -> format_citation style m = Ok unable.
Proof.
  intros H.
  assert (G : negb (dict_truthy m) || negb (truthy (title m)) = true)
    by (rewrite H; apply orb_true_r).
  destruct style; cbn [format_citation];
    unfold format_apa_citation, format_chicago_citation, format_mla_citation;
    rewrite G; reflexivity.
Qed.

Lemma soup_find_no_meta (soup : Soup) (k v : string) :
  Forall (fun tg => tag_name tg <> "meta") soup ->
  soup_find soup "meta" k v = None.
Proof.
  unfold soup_find. induction 1 as [| tg soup Htg Hs IH]; [reflexivity |].
  cbn [List.find]. unfold tag_matches at 1.
  destruct (String.eqb_spec (tag_name tg) "meta") as [E | _]; [congruence |].
  cbn [andb]. exact IH.
Qed.

Lemma identify_general (W : World) (link : string) (st : State) :
  Re.search doi_pattern link = None ->
  Py.contains "doi.org" link = false ->
  Re.search arxiv_pattern link = None ->
  identify_url_type W link st = extract_general_metadata W link st.
Proof.
  intros Hs Hc Ha. unfold identify_url_type. rewrite Hs, Hc. cbn [matched orb].
  unfold try_arxiv. rewrite Ha. reflexivity.
Qed.

(** X15: for a URL with no DOI and no arXiv match, a page without meta
    tags whose title element is missing or empty makes [main] write the
    style header followed by "Unable to generate citation.", in every
    style. *)
Theorem untitled_page_unable (W : World) (link : string) (style : Style)
  (st : State) (response : Response) (soup : Soup) :
  Py.is_empty link = false ->
  Re.search doi_pattern link = None ->
  Py.contains "doi.org" link = false ->
  Re.search arxiv_pattern link = None ->
  requests_get W (List.length (sent st)) (general_request link) = Ok response ->
  BeautifulSoup W (body response) = Ok soup ->
  Forall (fun tg => tag_name tg <> "meta") soup ->
  (forall tl, soup_title soup = Some tl -> truthy (tag_string tl) = false) ->
  main W link style st
  = (Ok tt,
     {| sent := (sent st ++ [general_request link])%list;
        clock_reads := S (S (clock_reads st));
        page := (page st ++ [style_header style;
                             "Unable to generate citation."])%list |}).
Proof.
  intros Hl Hs Hc Ha Hget Hsoup Hmeta Htitle.
  pose proof (extract_general_success W link st response soup Hget Hsoup) as E.
  rewrite <- (identify_general W link st Hs Hc Ha) in E.
  set (m := scrape W soup _) in E.
  assert (Hu : url m = Some link).
  { unfold m. destruct (scrape_keeps W soup (page_defaults link
                (datetime_now W (clock_reads st))
                (datetime_now W (S (clock_reads st))))) as [_ [-> _]].
    reflexivity. }
  assert (Hm : dict_truthy m = true).
  { unfold dict_truthy. rewrite Hu.
    destruct (title m), (authors m), (year m), (month m), (journal m),
      (volume m), (issue m), (doi m); reflexivity. }
  assert (Ht : truthy (title m) = false).
  { unfold m. rewrite scrape_title. unfold scraped_title.
    rewrite !soup_find_no_meta by exact Hmeta.
    destruct (soup_title soup) as [tl |] eqn:T; [apply Htitle; reflexivity |].
    reflexivity. }
  rewrite (main_with_record W link style st _ m Hl E Hm).
  rewrite (unable_when_no_title style m Ht). reflexivity.
Qed.

Lemma untitled_page_unable_witness :
  let W := {| requests_get := fun _ _ => Ok {| body := "" |};
              json := fun _ => Raise JSONDecodeError;
              ET_fromstring := fun _ => Raise ParseError;
              BeautifulSoup := fun _ =>
                Ok [{| tag_name := "title"; tag_attrs := [];
                       tag_string := Some "" |}];
              datetime_now := fun _ => {| dt_year := 2026; dt_month := 11 |};
              strptime_ymd := fun _ => Raise ValueError;
              fromisoformat := fun _ => Raise ValueError |} in
  page (snd (main W "https://example.org/" Chicago start))
  = ["Chicago Style"; "Unable to generate citation."].
Proof.
  intros W.
  rewrite (untitled_page_unable W "https://example.org/" Chicago start
             {| body := "" |}
             [{| tag_name := "title"; tag_attrs := []; tag_string := Some "" |}]);
    try reflexivity.
  - repeat constructor. discriminate.
  - intros tl H. injection H as <-. reflexivity.
Defined.

Lemma split_first (day rest cur : string) :
  all_chars (fun c => negb (Ascii.eqb c "T")) day = true ->
  Py.split_aux "T" 0 cur (day ++ "T" ++ rest)
  = (cur ++ day) :: Py.split_aux "T" 0 "" rest.
Proof.
  revert cur. induction day as [| c day IH]; intros cur H.
  - rewrite append_nil_r. cbn [append Py.split_aux prefix].
    destruct (ascii_dec "T" "T"); [| congruence].
    destruct rest; reflexivity.
  - cbn [all_chars] in H. apply andb_prop in H. destruct H as [Hc Hd].
    apply negb_true_iff in Hc. apply Ascii.eqb_neq in Hc.
    cbn [append Py.split_aux prefix].
    destruct (ascii_dec "T" c) as [E | _]; [congruence |].
    rewrite (IH _ Hd). rewrite append_assoc. reflexivity.
Qed.

Lemma scrape_date (W : World) (soup : Soup) (m : Metadata) :
  (year (scrape W soup m), month (scrape W soup m))
  = match or_else (soup_find soup "meta" "name" "citation_publication_date")
            (soup_find soup "meta" "property" "article:published_time") with
    | Some tg =>
        match (d <- Py.item0 (Py.split "T" (content tg)) ;; fromisoformat W d) with
        | Ok date => (Some (Py.str_int (dt_year date)), Some (month_name date))
        | Raise _ => (year m, month m)
        end
    | None => (year m, month m)
    end.
Proof.
  unfold scrape. cbv zeta.
  assert (P : forall a b : Metadata,
             year a = year b -> month a = month b ->
             (year a, month a) = (year b, month b)) by (intros; congruence).
  match goal with
  | |- (year ?X, month ?X) = _ =>
      match X with
      | match ?o with Some _ => _ | None => ?M5 end =>
          transitivity (year M5, month M5);
          [apply P; destruct o; reflexivity |];
          match M5 with
          | match ?o4 with Some _ => _ | None => ?M4 end =>
              transitivity (year M4, month M4);
              [apply P; destruct o4; reflexivity |];
              match M4 with
              | match ?o3 with Some _ => _ | None => ?M3 end =>
                  transitivity (year M3, month M3);
                  [apply P; destruct o3; reflexivity |]
              end
          end
      end
  end.
  destruct (or_else (soup_find soup "meta" "name" "citation_publication_date")
              (soup_find soup "meta" "property" "article:published_time"))
    as [tg |].
  - destruct (d <- Py.item0 (Py.split "T" (content tg)) ;; fromisoformat W d);
      cbn [year month set_month set_year]; [reflexivity |].
    apply P;
      destruct (soup_find_all soup "meta" "name" "citation_author");
      destruct (or_else (soup_find soup "meta" "name" "author")
                  (soup_find soup "meta" "property" "article:author"));
      destruct (or_else (soup_find soup "meta" "property" "og:title")
                  (or_else (soup_find soup "meta" "property" "dc:title")
                     (soup_find soup "meta" "name" "citation_title")));
      destruct (soup_title soup); reflexivity.
  - apply P;
      destruct (soup_find_all soup "meta" "name" "citation_author");
      destruct (or_else (soup_find soup "meta" "name" "author")
                  (soup_find soup "meta" "property" "article:author"));
      destruct (or_else (soup_find soup "meta" "property" "og:title")
                  (or_else (soup_find soup "meta" "property" "dc:title")
                     (soup_find soup "meta" "name" "citation_title")));
      destruct (soup_title soup); reflexivity.
Qed.

(** X16: when the page's date tag holds a text of the form day, "T",
    rest, the date parser is given the day alone; if it reads a date, the
    record's year and month come from that date, and if it raises, the
    year and month are left as they were. *)
Theorem publication_date_scraped (W : World) (soup : Soup) (m : Metadata)
  (tg : Tag) (day rest : string) :
  or_else (soup_find soup "meta" "name" "citation_publication_date")
    (soup_find soup "meta" "property" "article:published_time") = Some tg ->
  content tg = day ++ "T" ++ rest ->
  all_chars (fun c => negb (Ascii.eqb c "T")) day = true ->
  (forall date,
     fromisoformat W day = Ok date ->
     year (scrape W soup m) = Some (Py.str_int (dt_year date))
     /\ month (scrape W soup m) = Some (month_name date))
  /\ (forall e,
        fromisoformat W day = Raise e ->
        year (scrape W soup m) = year m /\ month (scrape W soup m) = month m).
Proof.
  intros Htag Hc Hday.
  pose proof (scrape_date W soup m) as H. rewrite Htag, Hc in H.
  unfold Py.split in H. rewrite (split_first day rest "" Hday) in H.
  cbn [Py.item0 rbind append] in H.
  split.
  - intros date Hd. rewrite Hd in H. injection H as -> ->. split; reflexivity.
  - intros e Hd. rewrite Hd in H. injection H as -> ->. split; reflexivity.
Qed.

Lemma publication_date_scraped_witness :
  year (scrape Sample.dated_world Sample.dated_page
          (page_defaults "https://example.org/"
             {| dt_year := 2026; dt_month := 11 |}
             {| dt_year := 2026; dt_month := 11 |}))
  = Some "2024"
  /\ month (scrape Sample.dated_world Sample.dated_page
              (page_defaults "https://example.org/"
                 {| dt_year := 2026; dt_month := 11 |}
                 {| dt_year := 2026; dt_month := 11 |}))
     = Some "March".
Proof.
  destruct (publication_date_scraped Sample.dated_world
              Sample.dated_page
              (page_defaults "https://example.org/"
                 {| dt_year := 2026; dt_month := 11 |}
                 {| dt_year := 2026; dt_month := 11 |})
              {| tag_name := "meta";
                 tag_attrs := [("property", "article:published_time");
                               ("content", "2024-03-05T10:00:00Z")];
                 tag_string := None |}
              "2024-03-05" "10:00:00Z" eq_refl eq_refl eq_refl) as [H _].
  apply (H {| dt_year := 2024; dt_month := 3 |}). reflexivity.
Defined.

Lemma url_locator (m : Metadata) (t u : string) :
  title m = Some t -> t <> "" ->
  truthy (doi m) = false -> url m = Some u -> u <> "" ->
  format_apa_citation m = (c <- apa_body m ;; Ok (c ++ ". " ++ u))
  /\ format_chicago_citation m
     = (c <- chicago_body m ;; Ok (c ++ " " ++ u ++ "."))
  /\ format_mla_citation m = (c <- mla_body m ;; Ok (c ++ ". " ++ u ++ ".")).
Proof.
  intros Ht Hne Hd Hu Hune.
  pose proof (title_guard m t Ht Hne) as G.
  unfold format_apa_citation, format_chicago_citation, format_mla_citation.
  rewrite G, Hd, Hu, (truthy_nonempty u Hune). cbn [item rbind].
  repeat split.
  destruct (mla_body m) as [c | e]; [| reflexivity]. cbn [rbind].
  rewrite !append_assoc. reflexivity.
Qed.

(** X17: every record the arXiv extractor returns has no doi, volume or
    issue, the url https://arxiv.org/abs/{id}, the journal "arXiv" and the
    publisher "Cornell University"; it is a truthy dictionary obtained with
    one request, and when its title is nonempty all three citations use that
    url as the locator. *)
Theorem arxiv_record_fields (W : World) (arxiv_id : string) (st st' : State)
  (m : Metadata) :
  extract_arxiv_metadata W arxiv_id st = (Ok (Some m), st') ->
  sent st' = (sent st ++ [arxiv_request arxiv_id])%list
  /\ doi m = None
  /\ url m = Some ("https://arxiv.org/abs/" ++ arxiv_id)
  /\ journal m = Some "arXiv"
  /\ publisher m = Some "Cornell University"
  /\ volume m = None /\ issue m = None
  /\ meta_truthy (Some m) = true
  /\ (forall t, title m = Some t -> t <> "" ->
      format_apa_citation m
      = (c <- apa_body m ;; Ok (c ++ ". " ++ "https://arxiv.org/abs/" ++ arxiv_id))
      /\ format_chicago_citation m
         = (c <- chicago_body m ;;
            Ok (c ++ " " ++ ("https://arxiv.org/abs/" ++ arxiv_id) ++ "."))
      /\ format_mla_citation m
         = (c <- mla_body m ;;
            Ok (c ++ ". " ++ ("https://arxiv.org/abs/" ++ arxiv_id) ++ "."))).
Proof.
  intros H.
  pose proof (arxiv_record_truthy W arxiv_id st st' m H) as Hm.
  destruct (extract_arxiv_inv W arxiv_id st st' m H)
    as [-> [response [root [entry [_ [_ [_ R]]]]]]].
  destruct (arxiv_record_inv W arxiv_id entry m R)
    as [Hd [Hu [Hj [Hp [Hv [Hi _]]]]]].
  do 8 (split; [first [assumption | reflexivity] |]).
  intros t Ht Hne.
  apply (url_locator m t ("https://arxiv.org/abs/" ++ arxiv_id) Ht Hne);
    [rewrite Hd; reflexivity | exact Hu | discriminate].
Qed.

Lemma arxiv_record_fields_witness :
  exists m st',
    extract_arxiv_metadata (Sample.world Sample.work) "2301.12345" start
    = (Ok (Some m), st')
    /\ url m = Some ("https://arxiv.org/abs/" ++ "2301.12345")
    /\ doi m = None.
Proof.
  eexists. eexists. split; [reflexivity |].
  pose proof (arxiv_record_fields (Sample.world Sample.work) "2301.12345"
                start _ _ eq_refl) as H.
  split; apply H.
Defined.

(** X18: the arXiv extractor returns [None] when the feed's entry has no
    title or publication date element, when one of them has no text, or
    when an author element has no name element. *)
Theorem arxiv_incomplete_entry (W : World) (arxiv_id : string) (st : State)
  (response : Response) (root entry : Element) :
  requests_get W (List.length (sent st)) (arxiv_request arxiv_id) = Ok response ->
  ET_fromstring W (body response) = Ok root ->
  find root (atom "entry") = Some entry ->
  find entry (atom "title") = None
  \/ (exists e, find entry (atom "title") = Some e /\ el_text e = None)
  \/ find entry (atom "published") = None
  \/ (exists e, find entry (atom "published") = Some e /\ el_text e = None)
  \/ (exists a, In a (findall entry (atom "author"))
                /\ find a (atom "name") = None) ->
  extract_arxiv_metadata W arxiv_id st
  = (Ok None, after_request st (arxiv_request arxiv_id)).
Proof.
  intros Hget Hxml Hentry Hbad.
  assert (R : exists e, arxiv_record W arxiv_id entry = Raise e).
  { unfold arxiv_record.
    destruct Hbad as [H | [[e [H T]] | Hbad]].
    { rewrite H. eexists; reflexivity. }
    { rewrite H. cbn [text_of rbind]. rewrite T. eexists; reflexivity. }
    destruct (text_of (find entry (atom "title"))) as [t |];
      [| eexists; reflexivity].
    cbn [rbind]. destruct (strip_of t) as [t' |]; [| eexists; reflexivity].
    cbn [rbind].
    destruct Hbad as [H | [[e [H T]] | [au [Hin Ha]]]].
    - destruct (comprehension _ _) as [names |]; [| eexists; reflexivity].
      cbn [rbind]. rewrite H. eexists; reflexivity.
    - destruct (comprehension _ _) as [names |]; [| eexists; reflexivity].
      cbn [rbind]. rewrite H. cbn [text_of rbind]. rewrite T.
      eexists; reflexivity.
    - assert (C : exists e,
                 comprehension (fun author => text_of (find author (atom "name")))
                   (findall entry (atom "author")) = Raise e).
      { induction (findall entry (atom "author")) as [| x l IH];
          [destruct Hin |].
        cbn [comprehension].
        destruct (text_of (find x (atom "name"))) as [v |] eqn:E;
          [| eexists; reflexivity].
        cbn [rbind]. destruct Hin as [-> | Hin].
        - rewrite Ha in E. discriminate E.
        - destruct (IH Hin) as [e ->]. eexists; reflexivity. }
      destruct C as [e ->]. eexists; reflexivity. }
  destruct R as [e R].
  unfold extract_arxiv_metadata, try_except, mbind, http_get, lift.
  change {| req_url := "http://export.arxiv.org/api/query?id_list=" ++ arxiv_id;
            req_headers := [] |}
    with (arxiv_request arxiv_id).
  rewrite Hget, Hxml. cbn [rbind]. rewrite Hentry, R. reflexivity.
Qed.

Lemma nameless_author_crashes_apa_witness :
  main (Sample.world Sample.org_work) ("https://doi.org/" ++ "10.1000/xyz123")
    APA start
  = (Raise IndexError,
     {| sent := [doi_request "10.1000/xyz123"]; clock_reads := 0;
        page := ["American Psychological Association Style"] |}).
Proof.
  eapply proj1.
  eapply nameless_author_crashes_apa
    with (response := {| body := "" |}) (data := Sample.org_work)
         (t := "Annual Report") (p := {| given := None; family := None |});
    try reflexivity; [discriminate | left; reflexivity].
Defined.

Lemma first_success_wins_witness :
  exists m st1,
    identify_url_type (Sample.world Sample.work)
      "https://doi.org/10.1000/xyz123" start = (Ok (Some m), st1)
    /\ sent st1 = (sent start ++ [doi_request "10.1000/xyz123"])%list.
Proof.
  eexists. eexists.
  edestruct (first_success_wins (Sample.world Sample.work)
               "https://doi.org/10.1000/xyz123" start) as [H _].
  apply (H {| Re.group0 := "10.1000/xyz123"; Re.group1 := None |});
    reflexivity.
Defined.

Lemma arxiv_incomplete_entry_witness :
  extract_arxiv_metadata Sample.bare_world "2301.12345" start
  = (Ok None, after_request start (arxiv_request "2301.12345")).
Proof.
  apply (arxiv_incomplete_entry Sample.bare_world "2301.12345" start
           {| body := "" |} Sample.bare_feed
           (Elem (atom "entry") None
              [Elem (atom "published") (Some "2023-05-10T00:00:00Z") []]));
    try reflexivity.
  left. reflexivity.
Defined.
